(** * icacls2h: a shallow embedding of [icacls2h.py]

    The script turns the output of the Windows [icacls] command into a
    readable report.  This development embeds the script's data (the three
    rights tables), its string handling (the Python [str] methods and the
    regular expression it relies on) and its control flow (the per-line loop
    and the command-line dispatch) and proves properties of them.

    Conventions.
    - A Python [str] is a [string]; its characters are the code points
      below 256, so the character classes below ([isspace], [\w], line
      boundaries, [isprintable]) are the Unicode ones restricted to that
      range.
    - Standard output is a list of [out] records, one per [logging] or
      [print] call, in call order.
    - [sys.exit] is modelled by returning the exit status together with
      what was written so far. *)

From Stdlib Require Import String Ascii List Bool Arith Lia DecimalString.
From Equations Require Import Equations.
Import ListNotations.

Local Open Scope string_scope.
Local Open Scope list_scope.
Local Open Scope nat_scope.

(** String concatenation, kept apart from list concatenation. *)
Infix "+:+" := String.append (at level 60, right associativity).

(** ** Python [str] operations used by the script *)

Module PyStr.

Definition code (c : ascii) : nat := nat_of_ascii c.

Definition between (lo hi : nat) (c : ascii) : bool :=
  (lo <=? code c) && (code c <=? hi).

Definition TAB : string := String "009"%char "".
Definition NL : string := String "010"%char "".

(** [str.isspace] on one character. *)
Definition is_space (c : ascii) : bool :=
  between 9 13 c || between 28 32 c || (code c =? 133) || (code c =? 160).

(** The line boundaries of [str.splitlines]. *)
Definition is_linebreak (c : ascii) : bool :=
  between 10 13 c || between 28 30 c || (code c =? 133).

(** [str.isprintable] on one character. *)
Definition is_printable (c : ascii) : bool :=
  negb (between 0 31 c || between 127 160 c || (code c =? 173)).

(** The class [\w] of [re] on [str] patterns: alphanumerics and [_]. *)
Definition is_word (c : ascii) : bool :=
  between 48 57 c || between 65 90 c || (code c =? 95) || between 97 122 c
  || (code c =? 170) || between 178 179 c || (code c =? 181)
  || between 185 186 c || between 188 190 c || between 192 214 c
  || between 216 246 c || between 248 255 c.

(** [c in s] for a one-character [c]. *)
Fixpoint contains (c : ascii) (s : string) : bool :=
  match s with
  | EmptyString => false
  | String d s' => (d =? c)%char || contains c s'
  end.

(** [s.rsplit(sep, 1)] for a one-character separator: [Some (a, b)] when
    the separator occurs (Python returns the two-element list [[a, b]]),
    [None] when it does not (Python returns [[s]]). *)
Fixpoint rsplit1 (sep : ascii) (s : string) : option (string * string) :=
  match s with
  | EmptyString => None
  | String c s' =>
      match rsplit1 sep s' with
      | Some (a, b) => Some (String c a, b)
      | None => if (c =? sep)%char then Some (EmptyString, s') else None
      end
  end.

(** [s.split(sep)] for a one-character separator; never empty. *)
Fixpoint split (sep : ascii) (s : string) : list string :=
  match s with
  | EmptyString => [EmptyString]
  | String c s' =>
      if (c =? sep)%char then EmptyString :: split sep s'
      else match split sep s' with
           | p :: ps => String c p :: ps
           | [] => [String c EmptyString]
           end
  end.

(** [s.endswith(suf)]. *)
Definition endswith (s suf : string) : bool :=
  let n := String.length s in
  let m := String.length suf in
  (m <=? n) && String.eqb (substring (n - m) m s) suf.

(** [s.removesuffix(suf)]. *)
Definition removesuffix (s suf : string) : string :=
  if endswith s suf then substring 0 (String.length s - String.length suf) s
  else s.

Fixpoint lstrip (s : string) : string :=
  match s with
  | EmptyString => EmptyString
  | String c s' => if is_space c then lstrip s' else s
  end.

Fixpoint rstrip (s : string) : string :=
  match s with
  | EmptyString => EmptyString
  | String c s' =>
      match rstrip s' with
      | EmptyString => if is_space c then EmptyString else String c EmptyString
      | r => String c r
      end
  end.

(** [s.strip()]. *)
Definition strip (s : string) : string := rstrip (lstrip s).

(** [s.splitlines()]: a line ends at a boundary character, [\r\n] counts
    as one boundary, and no empty line is reported after the last
    boundary. *)
Fixpoint splitlines (s : string) : list string :=
  match s with
  | EmptyString => []
  | String c s' =>
      if is_linebreak c then
        match c, s' with
        | "013"%char, String "010"%char s'' => EmptyString :: splitlines s''
        | _, _ => EmptyString :: splitlines s'
        end
      else
        match splitlines s' with
        | l :: ls => String c l :: ls
        | [] => [String c EmptyString]
        end
  end.

(** [s.count(c)] for a one-character [c]. *)
Fixpoint count (c : ascii) (s : string) : nat :=
  match s with
  | EmptyString => 0
  | String d s' => (if (d =? c)%char then 1 else 0) + count c s'
  end.

(** [s.ljust(width)]. *)
Fixpoint spaces (n : nat) : string :=
  match n with
  | 0 => EmptyString
  | S k => String " "%char (spaces k)
  end.

Definition ljust (width : nat) (s : string) : string :=
  s +:+ spaces (width - String.length s).

(** ["-" * n]. *)
Fixpoint dashes (n : nat) : string :=
  match n with
  | 0 => EmptyString
  | S k => String "-"%char (dashes k)
  end.

(** [str(n)] for a non-negative integer. *)
Definition str_of_nat (n : nat) : string :=
  NilEmpty.string_of_uint (Nat.to_uint n).

(** [str(b)] for a boolean. *)
Definition str_of_bool (b : bool) : string := if b then "True" else "False".

(** [str(x)] for an optional string: [None] prints as [None]. *)
Definition str_of_option (o : option string) : string :=
  match o with
  | Some s => s
  | None => "None"
  end.

(** [repr(s)]: the delimiter is the single quote, unless the string holds
    a single quote and no double quote; the delimiter and the backslash are
    escaped, tab, newline and carriage return get their letter, and the
    other non-printable characters become a two-digit hexadecimal escape. *)
Definition hex_digit (n : nat) : ascii :=
  if n <? 10 then ascii_of_nat (48 + n) else ascii_of_nat (87 + n).

Definition hex_escape (c : ascii) : string :=
  String "\"%char (String "x"%char
    (String (hex_digit (code c / 16)) (String (hex_digit (code c mod 16)) EmptyString))).

Definition DQUOTE : ascii := "034"%char.
Definition SQUOTE : ascii := "039"%char.

Definition repr_quote (s : string) : ascii :=
  if contains SQUOTE s && negb (contains DQUOTE s) then DQUOTE else SQUOTE.

Definition repr_char (quote c : ascii) : string :=
  if (c =? quote)%char || (c =? "\")%char then String "\"%char (String c EmptyString)
  else if (c =? "009")%char then "\t"
  else if (c =? "010")%char then "\n"
  else if (c =? "013")%char then "\r"
  else if is_printable c then String c EmptyString
  else hex_escape c.

Fixpoint repr_body (quote : ascii) (s : string) : string :=
  match s with
  | EmptyString => EmptyString
  | String c s' => repr_char quote c +:+ repr_body quote s'
  end.

Definition repr (s : string) : string :=
  let q := repr_quote s in
  String q (repr_body q s +:+ String q EmptyString).

(** Truth value of an optional string: [None] and [""] are false. *)
Definition truthy (o : option string) : bool :=
  match o with
  | Some (String _ _) => true
  | _ => false
  end.

End PyStr.

Import PyStr.

(** ** The rights tables

    Python dictionaries iterate in insertion order and the listing mode
    prints them in that order, so each table is an association list in
    source order. *)

Definition dict (V : Type) : Type := list (string * V).

(** [key in d] and [d.get(key)]. *)
Fixpoint lookup {V : Type} (key : string) (d : dict V) : option V :=
  match d with
  | [] => None
  | (k, v) :: d' => if String.eqb k key then Some v else lookup key d'
  end.

Definition keys {V : Type} (d : dict V) : list string := map fst d.

Definition DACL_BASIC_RIGHTS : dict string :=
  [ ("F", "Full access");
    ("M", "Modify access");
    ("RX", "Read and execute access");
    ("R", "Read-only access");
    ("W", "Write-only access") ].

Definition DACL_ADVANCED_RIGHTS : dict string :=
  [ ("D", "Delete");
    ("RC", "Read control (read permissions)");
    ("WDAC", "Write DAC (change permissions)");
    ("WO", "Write owner (take ownership)");
    ("S", "Synchronize");
    ("AS", "Access system security");
    ("MA", "Maximum allowed");
    ("GR", "Generic read");
    ("GW", "Generic write");
    ("GE", "Generic execute");
    ("GA", "Generic all");
    ("RD", "Read data/list directory");
    ("WD", "Write data/add file");
    ("AD", "Append data/add subdirectory");
    ("REA", "Read extended attributes");
    ("WEA", "Write extended attributes");
    ("X", "Execute/traverse");
    ("DC", "Delete child");
    ("RA", "Read attributes");
    ("WA", "Write attributes") ].

(** The values of the inheritance table are the source's triples
    [(name, description, dir_only)]. *)
Definition inherit_info : Type := string * string * bool.

Definition DACL_INHERITANCE_RIGHTS : dict inherit_info :=
  [ ("I", ("Inherit", "ACE inherited from the parent container.", false));
    ("OI", ("Object Inherit",
            "Objects in this container will inherit this ACE.", true));
    ("CI", ("Container Inherit",
            "Containers in this parent container will inherit this ACE.", true));
    ("IO", ("Inherit Only",
            "ACE inherited from the parent container, but does not apply to the object itself.",
            true));
    ("NP", ("Do Not Propagate Inherit",
            "Do not propagate inherit. ACE inherited by containers and objects from "
            +:+ "the parent container, but does not propagate to nested containers.",
            true)) ].

(** ** The pattern [RE_ACE] and [RE_ACE.findall]

    The pattern is an opening parenthesis, one or more characters of the
    class [[\w,]] captured as group 1, and a closing parenthesis. *)

Definition in_class (c : ascii) : bool := is_word c || (c =? ",")%char.

(** The greedy run of class characters at the start of [s], and what
    follows it. *)
Fixpoint span_class (s : string) : string * string :=
  match s with
  | EmptyString => (EmptyString, EmptyString)
  | String c s' =>
      if in_class c then
        let (run, rest) := span_class s' in (String c run, rest)
      else (EmptyString, s)
  end.

(** A match of the pattern anchored at the start of [s]: group 1 and the
    text after the match.  The greedy run is the only candidate for the
    group: a shorter run is followed by a class character, never by the
    closing parenthesis. *)
Definition match_here (s : string) : option (string * string) :=
  match s with
  | String c s1 =>
      if (c =? "(")%char then
        match span_class s1 with
        | (String x g, String y rest) =>
            if (y =? ")")%char then Some (String x g, rest) else None
        | _ => None
        end
      else None
  | EmptyString => None
  end.

Definition inspect {A : Type} (a : A) : {b : A | a = b} := exist _ a eq_refl.

(** [RE_ACE.findall(s)]: scan from the left; where the pattern matches,
    report group 1 and resume after the match, otherwise move one
    character on. *)
Equations? findall (s : string) : list string by wf (String.length s) lt :=
  findall s with inspect (match_here s) := {
    | exist _ (Some (g, rest)) _ => g :: findall rest
    | exist _ None _ with s := {
        | EmptyString => []
        | String _ s' => findall s' } }.
Proof.
  (* the text after a match is shorter than the text matched against *)
  assert (Hspan : forall t : string,
             String.length (fst (span_class t)) + String.length (snd (span_class t))
             = String.length t).
  { induction t as [|c t IH]; simpl; [reflexivity|].
    destruct (in_class c); simpl; [|reflexivity].
    destruct (span_class t) as [run after]; simpl in *. lia. }
  destruct s as [|c s1]; simpl in *; [discriminate|].
  destruct (c =? "(")%char; [|discriminate].
  specialize (Hspan s1).
  destruct (span_class s1) as [[|x g0] [|y rest0]]; try discriminate.
  destruct (y =? ")")%char; [|discriminate].
  match goal with H : Some _ = Some _ |- _ => injection H as <- <- end.
  simpl in Hspan. lia.
Qed.

(** ** Standard output, [logging] and [LoggerFormatter] *)

Inductive level : Type := DEBUG | INFO | WARNING | ERROR.

(** One record per call: [logging.<level>(msg)] or [print(text)]. *)
Inductive out : Type :=
| Log (lv : level) (msg : string)
| Print (text : string).

(** [LoggerFormatter.format]: the prefix chosen by the level. *)
Definition prefix_of (lv : level) : string :=
  match lv with
  | DEBUG => "[+]"
  | INFO => "[*]"
  | WARNING => "[!]"
  | _ => "[-]"
  end.

(** The formatted record; [asctime] is the time stamp when [-timestamp]
    is given, left-justified to 15 columns. *)
Definition format (asctime : option string) (lv : level) (msg : string) : string :=
  match asctime with
  | Some t => "[" +:+ ljust 15 t +:+ "] "
  | None => ""
  end +:+ prefix_of lv +:+ " " +:+ msg.

(** The characters one record puts on standard output. *)
Definition written (asctime : option string) (o : out) : string :=
  match o with
  | Log lv msg => format asctime lv msg +:+ NL
  | Print text => text +:+ NL
  end.

(** The root logger is at level INFO unless [-debug] is given. *)
Definition log_debug (debug : bool) (msg : string) : list out :=
  if debug then [Log DEBUG msg] else [].

(** ** Listing mode: [pprint_dacl] *)

(** A table value is a description or an inheritance triple. *)
Inductive dacl_value : Type :=
| Plain (desc : string)
| Triple (info : inherit_info).

Definition plain (d : dict string) : dict dacl_value :=
  map (fun kv => (fst kv, Plain (snd kv))) d.

Definition triple (d : dict inherit_info) : dict dacl_value :=
  map (fun kv => (fst kv, Triple (snd kv))) d.

(** [if isinstance(desc, tuple): desc, *_ = desc]. *)
Definition first_desc (v : dacl_value) : string :=
  match v with
  | Plain desc => desc
  | Triple (name, _, _) => name
  end.

Definition pprint_dacl (debug : bool) (name : string) (dacl_list : dict dacl_value)
  : list out :=
  [Log INFO (name +:+ " Rights:")]
  ++ log_debug debug ("Processing DACL list: " +:+ name)
  ++ [Print (ljust 20 "ACE Name" +:+ " " +:+ "Description");
      Print (ljust 20 (dashes 8) +:+ " " +:+ dashes 11)]
  ++ map (fun kv => Print (ljust 20 (fst kv) +:+ " " +:+ first_desc (snd kv))) dacl_list
  ++ log_debug debug ("Finished processing DACL list: " +:+ name)
  ++ [Print ""].

(** ** The per-line loop of the script *)

Definition HDR_INHERIT : out := Log INFO "Inheritance Rights:".
Definition HDR_PERM : out := Log INFO "Permissions:".

(** [f"\t+ ({ace}): {name} (dir-only: {dir_only})"]. *)
Definition inherit_entry (ace name : string) (dir_only : bool) : out :=
  Print (TAB +:+ "+ (" +:+ ace +:+ "): " +:+ name
         +:+ " (dir-only: " +:+ str_of_bool dir_only +:+ ")").

(** [f"\t\t{desc!r}"]. *)
Definition inherit_detail (desc : string) : out :=
  Print (TAB +:+ TAB +:+ repr desc).

(** [DACL_BASIC_RIGHTS.get(ace_key, DACL_ADVANCED_RIGHTS.get(ace_key))]. *)
Definition describe (ace_key : string) : option string :=
  match lookup ace_key DACL_BASIC_RIGHTS with
  | Some desc => Some desc
  | None => lookup ace_key DACL_ADVANCED_RIGHTS
  end.

(** [f"\t+ ({ace_key}): {desc}"]. *)
Definition perm_entry (ace_key : string) : out :=
  Print (TAB +:+ "+ (" +:+ ace_key +:+ "): " +:+ str_of_option (describe ace_key)).

(** The loop [for ace in ace_list], with its two flags. *)
Fixpoint ace_loop (details first_perm first_inherit : bool) (ace_list : list string)
  : list out :=
  match ace_list with
  | [] => []
  | ace :: rest =>
      match lookup ace DACL_INHERITANCE_RIGHTS with
      | Some (name, desc, dir_only) =>
          (if first_inherit then [HDR_INHERIT] else [])
          ++ [inherit_entry ace name dir_only]
          ++ (if details then [inherit_detail desc] else [])
          ++ ace_loop details first_perm false rest
      | None =>
          (if first_perm then [HDR_PERM] else [])
          ++ map perm_entry (split "," ace)
          ++ ace_loop details false first_inherit rest
      end
  end.

(** The variables that live across iterations of the line loop. *)
Record loop_state : Type := {
  target_file : option string;
  is_first_line : bool
}.

(** The identity of a line: the new [target_file], [target_account] and
    [current_dacl_string].  [rsplit1] answers [None] exactly when the
    separator does not occur (see [rsplit1_None]), so each [match] below is
    the source's membership test followed by its [rsplit]. *)
Definition extract_identity (st : loop_state) (line : string)
  : option string * option string * string :=
  match rsplit1 ":" line with
  | None => (target_file st, None, line)
  | Some (target, current_dacl_string) =>
      match (if is_first_line st then rsplit1 " " target else None) with
      | Some (cand_file, cand_account) =>
          if negb (endswith cand_file "NT") then
            (None, Some target, current_dacl_string)
          else
            (Some (strip (removesuffix cand_file "NT")),
             Some ("NT " +:+ cand_account),
             current_dacl_string)
      | None => (target_file st, Some target, current_dacl_string)
      end
  end.

Definition log_target (tf : option string) (first : bool) : list out :=
  match tf with
  | Some (String c f) =>
      if first then [Log INFO ("Target: " +:+ String c f +:+ NL)] else []
  | _ => []
  end.

Definition log_sid (account : option string) : list out :=
  match account with
  | Some (String c a) => [Log INFO ("SID Name: " +:+ strip (String c a))]
  | _ => []
  end.

(** One iteration of [for line in argv.dacl_string.splitlines()]. *)
Definition process_line (details : bool) (st : loop_state) (line : string)
  : loop_state * list out :=
  let ace_list := findall line in
  let '(tf, target_account, current_dacl_string) := extract_identity st line in
  let printed :=
    if 0 <? List.length ace_list then
      log_target tf (is_first_line st)
      ++ log_sid target_account
      ++ [Log INFO ("DACL: " +:+ repr (strip current_dacl_string))]
      ++ ace_loop details true true ace_list
      ++ [Print ""]
    else [] in
  ({| target_file := tf; is_first_line := false |}, printed).

Fixpoint process_lines (details : bool) (st : loop_state) (lines : list string)
  : loop_state * list out :=
  match lines with
  | [] => (st, [])
  | line :: rest =>
      let (st1, o1) := process_line details st line in
      let (st2, o2) := process_lines details st1 rest in
      (st2, o1 ++ o2)
  end.

Definition initial_state : loop_state :=
  {| target_file := None; is_first_line := true |}.

(** ** The command line and the main block *)

Inductive list_choice : Type := basic | advanced | inheritance | all.

(** The namespace returned by [parser.parse_args()]; [list_] is the
    [-list] option, restricted by [choices]. *)
Record args : Type := {
  timestamp : bool;
  debug : bool;
  list_ : option list_choice;
  dacl_string : option string;
  no_banner : bool;
  details : bool
}.

(** What the script reads from its surroundings: the installed version of
    the package, and the content of standard input ([None] when the read
    is interrupted by [KeyboardInterrupt]). *)
Record env : Type := {
  TOOL_VERSION : option string;
  stdin_read : option string
}.

Definition MSG_CONFLICT : string :=
  "Cannot list DACLs and process input at the same time. "
  +:+ "Please specify either the list option or the input string, but not both.".

Definition MSG_NO_STDIN : string :=
  "Unable to read input from stdin. Please specify an input DACL string.".

Definition banner (e : env) (argv : args) : list out :=
  match TOOL_VERSION e with
  | Some (String c v) =>
      if negb (no_banner argv) then
        [Print ("icacls2h v" +:+ String c v +:+ " - by MatrixEditor" +:+ NL)]
      else []
  | _ => []
  end.

(** [match argv.list]. *)
Definition list_tables (dbg : bool) (choice : list_choice) : list out :=
  match choice with
  | all =>
      pprint_dacl dbg "Basic" (plain DACL_BASIC_RIGHTS)
      ++ pprint_dacl dbg "Advanced" (plain DACL_ADVANCED_RIGHTS)
      ++ pprint_dacl dbg "Inheritance" (triple DACL_INHERITANCE_RIGHTS)
  | advanced => pprint_dacl dbg "Advanced" (plain DACL_ADVANCED_RIGHTS)
  | inheritance => pprint_dacl dbg "Inheritance" (triple DACL_INHERITANCE_RIGHTS)
  | basic => pprint_dacl dbg "Basic" (plain DACL_BASIC_RIGHTS)
  end.

(** [argv.dacl_string.count("\n") or 1]. *)
Definition line_count (s : string) : nat :=
  match count "010"%char s with
  | 0 => 1
  | n => n
  end.

Definition run_loop (argv : args) (input : string) : list out :=
  log_debug (debug argv)
    ("Processing input DACL string with " +:+ str_of_nat (line_count input) +:+ " lines.")
  ++ snd (process_lines (details argv) initial_state (splitlines input)).

Definition is_some {A : Type} (o : option A) : bool :=
  match o with
  | Some _ => true
  | None => false
  end.

(** [match argv.list]: no case is taken when the option is absent. *)
Definition list_mode (argv : args) : list out :=
  match list_ argv with
  | Some choice => list_tables (debug argv) choice
  | None => []
  end.

(** [if not argv.dacl_string: ... sys.stdin.read()]: the input to process
    with what the step logs, or the interrupted read. *)
Definition read_input (e : env) (argv : args) : list out * option string :=
  match dacl_string argv with
  | Some (String c s) => ([], Some (String c s))
  | _ =>
      match stdin_read e with
      | Some input => (log_debug (debug argv) "Reading input from stdin...", Some input)
      | None =>
          (log_debug (debug argv) "Reading input from stdin..."
           ++ [Log INFO MSG_NO_STDIN], None)
      end
  end.

(** The main block, in source order: what is written, and the exit
    status. *)
Definition main (e : env) (argv : args) : list out * nat :=
  if truthy (dacl_string argv) && is_some (list_ argv) then
    ([Log ERROR MSG_CONFLICT], 1)
  else
    let o1 := banner e argv in
    let o2 := list_mode argv in
    if is_some (list_ argv) then (o1 ++ o2, 0)
    else
      match read_input e argv with
      | (o3, None) => (o1 ++ o2 ++ o3, 1)
      | (o3, Some input) => (o1 ++ o2 ++ o3 ++ run_loop argv input, 0)
      end.

(** ** Vocabulary of the properties *)

(** Every character of [s] is in the class [[\w,]]. *)
Fixpoint all_class (s : string) : bool :=
  match s with
  | EmptyString => true
  | String c s' => in_class c && all_class s'
  end.

Definition mem (key : string) (l : list string) : bool :=
  existsb (String.eqb key) l.

Definition disjointb (l1 l2 : list string) : bool :=
  forallb (fun k => negb (mem k l2)) l1.

(** [ace in DACL_INHERITANCE_RIGHTS]. *)
Definition is_inherit (ace : string) : bool :=
  is_some (lookup ace DACL_INHERITANCE_RIGHTS).

Definition is_perm (ace : string) : bool := negb (is_inherit ace).

(** What one token prints besides a section header. *)
Definition entry_lines (details : bool) (ace : string) : list out :=
  match lookup ace DACL_INHERITANCE_RIGHTS with
  | Some (name, desc, dir_only) =>
      inherit_entry ace name dir_only
      :: (if details then [inherit_detail desc] else [])
  | None => map perm_entry (split "," ace)
  end.

(** The header of the section a token belongs to. *)
Definition section_header (ace : string) : out :=
  if is_inherit ace then HDR_INHERIT else HDR_PERM.

Definition is_header (o : out) : bool :=
  match o with
  | Log INFO msg => String.eqb msg "Inheritance Rights:" || String.eqb msg "Permissions:"
  | _ => false
  end.

(** An entry line is a printed line that starts with a tab and [+ (]. *)
Definition is_entry_line (o : out) : bool :=
  match o with
  | Print text => prefix (TAB +:+ "+ (") text
  | Log _ _ => false
  end.

Definition level_eq_dec (a b : level) : {a = b} + {a <> b}.
Proof. decide equality. Defined.

Definition out_eq_dec (a b : out) : {a = b} + {a <> b}.
Proof. decide equality; solve [apply string_dec | apply level_eq_dec]. Defined.

(** The layout of the specification's renderer: the Inheritance Rights
    section with every inheritance entry, then the Permissions section
    with every other entry. *)
Definition grouped_sections (details : bool) (ace_list : list string) : list out :=
  HDR_INHERIT :: flat_map (entry_lines details) (filter is_inherit ace_list)
  ++ HDR_PERM :: flat_map (entry_lines details) (filter is_perm ace_list).

(** Before the first line is processed no file has been found. *)
Definition state_ok (st : loop_state) : Prop :=
  is_first_line st = true -> target_file st = None.

(** The record written by [logging.info("Target: %s\n", target_file)]. *)
Definition is_target_line (o : out) : bool :=
  match o with
  | Log INFO msg => prefix "Target: " msg
  | _ => false
  end.

Definition list_all_with (input : option string) : args :=
  {| timestamp := false; debug := false; list_ := Some all;
     dacl_string := input; no_banner := true; details := false |}.

Definition no_version_no_stdin : env :=
  {| TOOL_VERSION := None; stdin_read := None |}.

(** A well-formed token: a non-empty run of class characters. *)
Definition token_ok (g : string) : Prop :=
  g <> EmptyString /\ all_class g = true.

(** The rights string [icacls] writes for a list of groups: each group in
    parentheses, one after the other. *)
Fixpoint rights_string (groups : list string) : string :=
  match groups with
  | [] => EmptyString
  | g :: rest => String "(" (g +:+ String ")" (rights_string rest))
  end.

(** The pieces of [split] glued back with the separator:
    [sep.join(pieces)]. *)
Fixpoint join (sep : ascii) (pieces : list string) : string :=
  match pieces with
  | [] => EmptyString
  | [p] => p
  | p :: ps => p +:+ String sep (join sep ps)
  end.

(** Some character of [s] satisfies [p]. *)
Fixpoint any_char (p : ascii -> bool) (s : string) : bool :=
  match s with
  | EmptyString => false
  | String c s' => p c || any_char p s'
  end.

(** The state of the loop after the first line when no file was found. *)
Definition later_state : loop_state :=
  {| target_file := None; is_first_line := false |}.

(** The line written by [print(f"\t\t{desc!r}")] under [-details]. *)
Definition is_detail_line (o : out) : bool :=
  match o with
  | Print text => prefix (TAB +:+ TAB) text
  | Log _ _ => false
  end.

Definition is_debug (o : out) : bool :=
  match o with
  | Log DEBUG _ => true
  | _ => false
  end.

(** The same command line with [-debug] set or cleared. *)
Definition with_debug (b : bool) (argv : args) : args :=
  {| timestamp := timestamp argv; debug := b; list_ := list_ argv;
     dacl_string := dacl_string argv; no_banner := no_banner argv;
     details := details argv |}.

(** The same surroundings with another content of standard input. *)
Definition with_stdin (input : option string) (e : env) : env :=
  {| TOOL_VERSION := TOOL_VERSION e; stdin_read := input |}.

(** The line has at least one token. *)
Definition has_tokens (line : string) : bool :=
  0 <? List.length (findall line).

(** The same surroundings with no installed version of the package. *)
Definition without_version (e : env) : env :=
  {| TOOL_VERSION := None; stdin_read := stdin_read e |}.

(** Each record that is no section header, with the header in force
    where it is written: the last header written before it, if any. *)
Fixpoint with_section (current : option out) (l : list out)
  : list (option out * out) :=
  match l with
  | [] => []
  | o :: l' =>
      if is_header o then with_section (Some o) l'
      else (current, o) :: with_section current l'
  end.

(** A command line with [-list] and the banner left on, and surroundings
    where version 0.1 of the package is installed. *)
Definition with_banner_list (choice : list_choice) : args :=
  {| timestamp := false; debug := false; list_ := Some choice;
     dacl_string := None; no_banner := false; details := false |}.

Definition version_0_1 : env :=
  {| TOOL_VERSION := Some "0.1"; stdin_read := None |}.

(** * Properties *)

(** ** Sample runs *)

Example findall_rights : findall "(OI)(CI)(F)" = ["OI"; "CI"; "F"].
Proof. reflexivity. Qed.

Example findall_rejects : findall "a(b c) ((RD,WD)) () (x" = ["RD,WD"].
Proof. reflexivity. Qed.

Example splitlines_sample :
  splitlines ("a:(F)" +:+ NL +:+ NL +:+ "b:(R)" +:+ String "013" NL)
  = ["a:(F)"; ""; "b:(R)"].
Proof. reflexivity. Qed.

Example repr_sample : repr ("it's" +:+ TAB) = String DQUOTE ("it's\t" +:+ String DQUOTE "").
Proof. reflexivity. Qed.

Example identity_sample :
  extract_identity initial_state "somefile.txt NT AUTHORITY\SYSTEM:(F)"
  = (Some "somefile.txt", Some "NT AUTHORITY\SYSTEM", "(F)").
Proof. reflexivity. Qed.

Example identity_group_with_space :
  extract_identity initial_state "BUILTIN\Remote Users:(RX)"
  = (None, Some "BUILTIN\Remote Users", "(RX)").
Proof. reflexivity. Qed.

Example run_sample :
  main {| TOOL_VERSION := None; stdin_read := None |}
       {| timestamp := false; debug := false; list_ := None;
          dacl_string := Some ("C:\Data NT AUTHORITY\SYSTEM:(OI)(CI)(F)" +:+ NL
                               +:+ "         BUILTIN\Users:(I)(RX,W)");
          no_banner := false; details := false |}
  = ([Log INFO ("Target: C:\Data" +:+ NL);
      Log INFO "SID Name: NT AUTHORITY\SYSTEM";
      Log INFO "DACL: '(OI)(CI)(F)'";
      Log INFO "Inheritance Rights:";
      Print (TAB +:+ "+ (OI): Object Inherit (dir-only: True)");
      Print (TAB +:+ "+ (CI): Container Inherit (dir-only: True)");
      Log INFO "Permissions:";
      Print (TAB +:+ "+ (F): Full access");
      Print "";
      Log INFO "SID Name: BUILTIN\Users";
      Log INFO "DACL: '(I)(RX,W)'";
      Log INFO "Inheritance Rights:";
      Print (TAB +:+ "+ (I): Inherit (dir-only: False)");
      Log INFO "Permissions:";
      Print (TAB +:+ "+ (RX): Read and execute access");
      Print (TAB +:+ "+ (W): Write-only access");
      Print ""],
     0).
Proof. reflexivity. Qed.

Example written_sample :
  written None (Log INFO "Permissions:") = "[*] Permissions:" +:+ NL.
Proof. reflexivity. Qed.

(** ** Termination measure of the tokenizer *)

Lemma span_class_length (s : string) :
  String.length (fst (span_class s)) + String.length (snd (span_class s))
  = String.length s.
Proof.
  induction s as [|c s IH]; simpl; [reflexivity|].
  destruct (in_class c); simpl; [|reflexivity].
  destruct (span_class s) as [run rest]; simpl in *. lia.
Qed.

Lemma match_here_shorter (s g rest : string) :
  match_here s = Some (g, rest) -> String.length rest < String.length s.
Proof.
  destruct s as [|c s1]; simpl; [discriminate|].
  destruct (c =? "(")%char; [|discriminate].
  pose proof (span_class_length s1) as Hlen.
  destruct (span_class s1) as [[|x g0] [|y rest0]]; try discriminate.
  destruct (y =? ")")%char; [|discriminate].
  intros [= <- <-]. simpl in Hlen. lia.
Qed.

(** ** Strings *)

Lemma append_assoc (a b c : string) : (a +:+ b) +:+ c = a +:+ (b +:+ c).
Proof. induction a as [|x a IH]; simpl; [reflexivity | now rewrite IH]. Qed.

Lemma rsplit1_None (sep : ascii) (s : string) :
  rsplit1 sep s = None <-> contains sep s = false.
Proof.
  induction s as [|c s IH]; simpl; [tauto|].
  destruct (rsplit1 sep s) as [[a b]|].
  - split; [discriminate|]. intros H.
    apply orb_false_iff in H as [_ H]. apply IH in H. discriminate.
  - destruct (Ascii.eqb c sep); simpl.
    + split; discriminate.
    + split; intros _; [now apply IH | reflexivity].
Qed.

(** [rsplit] cuts at the last occurrence of the separator. *)
Lemma rsplit1_Some (sep : ascii) (s a b : string) :
  rsplit1 sep s = Some (a, b) ->
  s = a +:+ String sep b /\ contains sep b = false.
Proof.
  revert a b. induction s as [|c s IH]; simpl; intros a b; [discriminate|].
  destruct (rsplit1 sep s) as [[a0 b0]|] eqn:E.
  - intros [= <- <-]. destruct (IH _ _ eq_refl) as [-> Hb]. now split.
  - destruct (Ascii.eqb_spec c sep) as [->|_]; [|discriminate].
    intros [= <- <-]. split; [reflexivity | now apply rsplit1_None].
Qed.

Lemma contains_rsplit1 (sep : ascii) (s : string) :
  contains sep s = true -> exists a b, rsplit1 sep s = Some (a, b).
Proof.
  intros H. destruct (rsplit1 sep s) as [[a b]|] eqn:E; [eauto|].
  apply rsplit1_None in E. congruence.
Qed.

Lemma split_length (sep : ascii) (s : string) :
  List.length (split sep s) = S (count sep s).
Proof.
  induction s as [|c s IH]; simpl; [reflexivity|].
  destruct (Ascii.eqb c sep); simpl; [now rewrite IH|].
  destruct (split sep s) as [|p ps]; simpl in *; [discriminate | exact IH].
Qed.

Lemma count_0_contains (c : ascii) (s : string) :
  contains c s = false -> count c s = 0.
Proof.
  induction s as [|d s IH]; simpl; [reflexivity|].
  intros H. apply orb_false_iff in H as [-> H]. now rewrite IH.
Qed.

(** ** Tables *)

Lemma lookup_In {V : Type} (key : string) (d : dict V) (v : V) :
  lookup key d = Some v -> In key (keys d).
Proof.
  induction d as [|[k w] d IH]; simpl; [discriminate|].
  destruct (String.eqb_spec k key) as [->|_]; [now left | right; auto].
Qed.

Lemma In_lookup {V : Type} (key : string) (d : dict V) :
  In key (keys d) -> exists v, lookup key d = Some v.
Proof.
  induction d as [|[k w] d IH]; simpl; [tauto|].
  intros [->|H].
  - rewrite String.eqb_refl. eauto.
  - destruct (String.eqb k key); eauto.
Qed.

Lemma mem_In (key : string) (l : list string) : mem key l = true <-> In key l.
Proof.
  unfold mem. rewrite existsb_exists. split.
  - intros [x [Hx E]]. apply String.eqb_eq in E. now subst.
  - intros H. exists key. split; [exact H | apply String.eqb_refl].
Qed.

Lemma disjointb_sound (l1 l2 : list string) (key : string) :
  disjointb l1 l2 = true -> ~ (In key l1 /\ In key l2).
Proof.
  unfold disjointb. rewrite forallb_forall. intros H [H1 H2].
  specialize (H _ H1). apply mem_In in H2. rewrite H2 in H. discriminate.
Qed.

(** No inheritance key holds a comma. *)
Lemma inherit_key_no_comma (ace : string) (info : inherit_info) :
  lookup ace DACL_INHERITANCE_RIGHTS = Some info -> contains "," ace = false.
Proof.
  intros H. apply lookup_In in H. simpl in H.
  repeat (destruct H as [<-|H]; [reflexivity|]). destruct H.
Qed.

(** An inheritance key is in neither permission table. *)
Lemma inherit_key_undescribed (key : string) (info : inherit_info) :
  lookup key DACL_INHERITANCE_RIGHTS = Some info -> describe key = None.
Proof.
  intros H. apply lookup_In in H. simpl in H.
  repeat (destruct H as [<-|H]; [reflexivity|]). destruct H.
Qed.

(** C8: the Basic, Advanced and Inheritance tables are pairwise disjoint:
    no rights code is a key of two of them. *)
Theorem tables_pairwise_disjoint (key : string) :
  ~ (In key (keys DACL_BASIC_RIGHTS) /\ In key (keys DACL_ADVANCED_RIGHTS))
  /\ ~ (In key (keys DACL_BASIC_RIGHTS) /\ In key (keys DACL_INHERITANCE_RIGHTS))
  /\ ~ (In key (keys DACL_ADVANCED_RIGHTS) /\ In key (keys DACL_INHERITANCE_RIGHTS)).
Proof.
  repeat split; apply disjointb_sound; reflexivity.
Qed.

(** ** The rendering loop *)

Lemma ace_loop_cons (details fp fi : bool) (ace : string) (rest : list string) :
  ace_loop details fp fi (ace :: rest)
  = (if (if is_inherit ace then fi else fp) then [section_header ace] else [])
    ++ entry_lines details ace
    ++ ace_loop details (fp && is_inherit ace) (fi && is_perm ace) rest.
Proof.
  unfold section_header, entry_lines, is_perm, is_inherit. cbn [ace_loop].
  destruct (lookup ace DACL_INHERITANCE_RIGHTS) as [[[name desc] dir_only]|];
    destruct fp, fi; reflexivity.
Qed.

Lemma ace_loop_app (details fp fi : bool) (l1 l2 : list string) :
  ace_loop details fp fi (l1 ++ l2)
  = ace_loop details fp fi l1
    ++ ace_loop details (fp && forallb is_inherit l1) (fi && forallb is_perm l1) l2.
Proof.
  revert fp fi. induction l1 as [|ace l1 IH]; intros fp fi.
  - simpl. now rewrite !andb_true_r.
  - change ((ace :: l1) ++ l2) with (ace :: (l1 ++ l2)).
    rewrite !ace_loop_cons, IH, <- !app_assoc. simpl forallb.
    now rewrite !andb_assoc.
Qed.

Lemma entry_lines_not_header (details : bool) (ace : string) :
  filter (fun o => negb (is_header o)) (entry_lines details ace)
  = entry_lines details ace.
Proof.
  unfold entry_lines.
  destruct (lookup ace DACL_INHERITANCE_RIGHTS) as [[[name desc] dir_only]|].
  - destruct details; reflexivity.
  - induction (split "," ace) as [|p ps IH]; simpl; [reflexivity | now rewrite IH].
Qed.

Lemma entry_lines_no_occ (details : bool) (ace : string) (h : out) :
  is_header h = true -> count_occ out_eq_dec (entry_lines details ace) h = 0.
Proof.
  intros Hh. apply count_occ_not_In. intros Hin.
  assert (Hf : In h (filter (fun o => negb (is_header o)) (entry_lines details ace)))
    by now rewrite entry_lines_not_header.
  apply filter_In in Hf as [_ Hf]. rewrite Hh in Hf. discriminate.
Qed.

Lemma header_filtered (b : bool) (ace : string) :
  filter (fun o => negb (is_header o)) (if b then [section_header ace] else []) = [].
Proof. unfold section_header. destruct b, (is_inherit ace); reflexivity. Qed.

(** Without the headers, the loop prints the tokens' lines in token order. *)
Lemma ace_loop_entries (details fp fi : bool) (ace_list : list string) :
  filter (fun o => negb (is_header o)) (ace_loop details fp fi ace_list)
  = flat_map (entry_lines details) ace_list.
Proof.
  revert fp fi. induction ace_list as [|ace rest IH]; intros fp fi; [reflexivity|].
  rewrite ace_loop_cons, !filter_app, header_filtered, entry_lines_not_header, IH.
  reflexivity.
Qed.

Lemma ace_loop_count_inherit (details fp fi : bool) (ace_list : list string) :
  count_occ out_eq_dec (ace_loop details fp fi ace_list) HDR_INHERIT
  = if fi && existsb is_inherit ace_list then 1 else 0.
Proof.
  revert fp fi. induction ace_list as [|ace rest IH]; intros fp fi.
  - simpl. now rewrite andb_false_r.
  - rewrite ace_loop_cons, !count_occ_app, IH, entry_lines_no_occ by reflexivity.
    unfold section_header, is_perm. cbn [existsb].
    destruct (is_inherit ace), fi, fp, (existsb is_inherit rest); reflexivity.
Qed.

Lemma ace_loop_count_perm (details fp fi : bool) (ace_list : list string) :
  count_occ out_eq_dec (ace_loop details fp fi ace_list) HDR_PERM
  = if fp && existsb is_perm ace_list then 1 else 0.
Proof.
  revert fp fi. induction ace_list as [|ace rest IH]; intros fp fi.
  - simpl. now rewrite andb_false_r.
  - rewrite ace_loop_cons, !count_occ_app, IH, entry_lines_no_occ by reflexivity.
    cbn [existsb]. set (e := existsb is_perm rest).
    unfold section_header, is_perm.
    destruct (is_inherit ace), fi, fp, e; reflexivity.
Qed.

Lemma prefix_nil (s : string) : prefix EmptyString s = true.
Proof. now destruct s. Qed.

Lemma perm_entry_is_entry (ace_key : string) : is_entry_line (perm_entry ace_key) = true.
Proof. unfold is_entry_line, perm_entry. cbn. apply prefix_nil. Qed.

Lemma inherit_entry_is_entry (ace name : string) (dir_only : bool) :
  is_entry_line (inherit_entry ace name dir_only) = true.
Proof. unfold is_entry_line, inherit_entry. cbn. apply prefix_nil. Qed.

Lemma entry_lines_count (details : bool) (ace : string) :
  List.length (filter is_entry_line (entry_lines details ace)) = 1 + count "," ace.
Proof.
  unfold entry_lines.
  destruct (lookup ace DACL_INHERITANCE_RIGHTS) as [[[name desc] dir_only]|] eqn:E.
  - apply inherit_key_no_comma, count_0_contains in E. rewrite E.
    cbn [filter]. rewrite inherit_entry_is_entry.
    destruct details; reflexivity.
  - rewrite <- split_length.
    induction (split "," ace) as [|p ps IH]; [reflexivity|].
    cbn [map filter]. rewrite perm_entry_is_entry. cbn [List.length].
    now rewrite IH.
Qed.

Lemma ace_loop_entry_count (details fp fi : bool) (ace_list : list string) :
  List.length (filter is_entry_line (ace_loop details fp fi ace_list))
  = List.length ace_list + list_sum (map (count ",") ace_list).
Proof.
  revert fp fi. induction ace_list as [|ace rest IH]; intros fp fi; [reflexivity|].
  rewrite ace_loop_cons, !filter_app, !length_app, IH, entry_lines_count.
  assert (H0 : forall b : bool, filter is_entry_line (if b then [section_header ace] else []) = []).
  { intros b. unfold section_header. destruct b, (is_inherit ace); reflexivity. }
  rewrite H0. simpl. lia.
Qed.

Lemma ace_loop_In (details fp fi : bool) (ace_list : list string) (ace : string) (o : out) :
  In ace ace_list -> In o (entry_lines details ace) ->
  In o (ace_loop details fp fi ace_list).
Proof.
  revert fp fi. induction ace_list as [|a rest IH]; intros fp fi; [intros []|].
  intros [->|Hin] Ho; rewrite ace_loop_cons, !in_app_iff.
  - right. now left.
  - right. right. now apply IH.
Qed.

(** ** One line of input *)

Lemma process_line_state (details : bool) (st : loop_state) (line : string) :
  fst (process_line details st line)
  = {| target_file := fst (fst (extract_identity st line)); is_first_line := false |}.
Proof.
  unfold process_line. now destruct (extract_identity st line) as [[tf acc] cur].
Qed.

Lemma process_line_printed (details : bool) (st : loop_state) (line : string) :
  snd (process_line details st line)
  = match findall line with
    | [] => []
    | _ :: _ =>
        log_target (fst (fst (extract_identity st line))) (is_first_line st)
        ++ log_sid (snd (fst (extract_identity st line)))
        ++ [Log INFO ("DACL: " +:+ repr (strip (snd (extract_identity st line))))]
        ++ ace_loop details true true (findall line)
        ++ [Print ""]
    end.
Proof.
  unfold process_line. destruct (extract_identity st line) as [[tf acc] cur].
  now destruct (findall line).
Qed.

Lemma log_target_no_entry (tf : option string) (first : bool) :
  filter is_entry_line (log_target tf first) = [].
Proof. destruct tf as [[|c f]|], first; reflexivity. Qed.

Lemma log_sid_no_entry (account : option string) :
  filter is_entry_line (log_sid account) = [].
Proof. now destruct account as [[|c a]|]. Qed.

(** C1 (amended): for a token that is not a key of the Inheritance table
    and a comma-separated piece of it that is a key of neither the Basic
    nor the Advanced table, the rendered line holds the entry made of the
    literal piece followed by the text None, the way Python prints a
    missing description. *)
Theorem unknown_piece_prints_None
  (details : bool) (st : loop_state) (line token piece : string) :
  In token (findall line) ->
  lookup token DACL_INHERITANCE_RIGHTS = None ->
  In piece (split "," token) ->
  lookup piece DACL_BASIC_RIGHTS = None ->
  lookup piece DACL_ADVANCED_RIGHTS = None ->
  In (Print (TAB +:+ "+ (" +:+ piece +:+ "): None"))
     (snd (process_line details st line)).
Proof.
  intros Htok Hinh Hpiece Hb Ha. rewrite process_line_printed.
  destruct (findall line) as [|t ts] eqn:E; [destruct Htok|].
  rewrite !in_app_iff. right. right. right. left.
  apply ace_loop_In with (ace := token); [exact Htok|].
  unfold entry_lines. rewrite Hinh.
  apply in_map_iff. exists piece. split; [|exact Hpiece].
  unfold perm_entry, describe. now rewrite Hb, Ha.
Qed.

Lemma unknown_piece_prints_None_witness :
  In "RD,ZZ" (findall "Users:(RD,ZZ)")
  /\ lookup "RD,ZZ" DACL_INHERITANCE_RIGHTS = None
  /\ In "ZZ" (split "," "RD,ZZ")
  /\ lookup "ZZ" DACL_BASIC_RIGHTS = None
  /\ lookup "ZZ" DACL_ADVANCED_RIGHTS = None
  /\ In (Print (TAB +:+ "+ (" +:+ "ZZ" +:+ "): None"))
        (snd (process_line false initial_state "Users:(RD,ZZ)")).
Proof.
  assert (H1 : In "RD,ZZ" (findall "Users:(RD,ZZ)")) by (left; reflexivity).
  assert (H2 : In "ZZ" (split "," "RD,ZZ")) by (right; left; reflexivity).
  repeat split; try reflexivity; try assumption.
  exact (unknown_piece_prints_None false initial_state "Users:(RD,ZZ)" "RD,ZZ" "ZZ"
           H1 eq_refl H2 eq_refl eq_refl).
Defined.

(** C1 as stated fails: the unknown code [ZZ] of the line [Users:(ZZ)] is
    a piece of a token outside the three tables, and no entry with the
    placeholder Unknown is printed for it. *)
Lemma unknown_placeholder_counterexample :
  In "ZZ" (findall "Users:(ZZ)")
  /\ lookup "ZZ" DACL_INHERITANCE_RIGHTS = None
  /\ In "ZZ" (split "," "ZZ")
  /\ lookup "ZZ" DACL_BASIC_RIGHTS = None
  /\ lookup "ZZ" DACL_ADVANCED_RIGHTS = None
  /\ ~ In (Print (TAB +:+ "+ (" +:+ "ZZ" +:+ "): Unknown"))
          (snd (process_line false initial_state "Users:(ZZ)")).
Proof.
  repeat split; try reflexivity; try (left; reflexivity).
  vm_compute. intros H.
  repeat (destruct H as [H|H]; [discriminate H|]). exact H.
Qed.

(** C4 (amended): the number of entry lines rendered for a line is the
    number of its tokens plus the number of commas inside them: a token
    that bundles several codes renders one line per code. *)
Theorem entry_lines_are_tokens_plus_commas
  (details : bool) (st : loop_state) (line : string) :
  List.length (filter is_entry_line (snd (process_line details st line)))
  = List.length (findall line) + list_sum (map (count ",") (findall line)).
Proof.
  rewrite process_line_printed.
  destruct (findall line) as [|t ts]; [reflexivity|].
  rewrite !filter_app, log_target_no_entry, log_sid_no_entry, !length_app.
  rewrite ace_loop_entry_count. simpl. lia.
Qed.

(** C4 as stated fails: the line [Users:(RD,WD,AD)] has one token and
    three entry lines. *)
Lemma entry_count_counterexample :
  List.length (findall "Users:(RD,WD,AD)") = 1
  /\ List.length
       (filter is_entry_line (snd (process_line false initial_state "Users:(RD,WD,AD)")))
     = 3.
Proof. split; reflexivity. Qed.

Lemma forallb_inherit_no_perm (l : list string) :
  forallb is_inherit l = negb (existsb is_perm l).
Proof.
  induction l as [|a l IH]; [reflexivity|]. cbn [forallb existsb].
  rewrite IH. unfold is_perm. now destruct (is_inherit a).
Qed.

(** C9 (amended): a token that holds a comma is not a key of the
    Inheritance table, so the loop takes the permission branch for it: the
    Permissions header is written just before its entries when no earlier
    token of the line was a permission, and is already in the output
    otherwise, once in either case; the token then gets one entry per
    comma-separated piece, described by the Basic table and, failing that,
    by the Advanced table, so a piece that is an inheritance code is in
    neither and prints None. *)
Theorem comma_token_takes_permission_branch
  (details : bool) (pre : list string) (token : string) (post : list string) :
  contains "," token = true ->
  lookup token DACL_INHERITANCE_RIGHTS = None
  /\ ace_loop details true true (pre ++ token :: post)
     = ace_loop details true true pre
       ++ (if forallb is_inherit pre then [HDR_PERM] else [])
       ++ map (fun piece =>
                 Print (TAB +:+ "+ (" +:+ piece +:+ "): "
                        +:+ str_of_option
                              match lookup piece DACL_BASIC_RIGHTS with
                              | Some desc => Some desc
                              | None => lookup piece DACL_ADVANCED_RIGHTS
                              end))
              (split "," token)
       ++ ace_loop details false (forallb is_perm pre) post
  /\ count_occ out_eq_dec
       (ace_loop details true true pre
        ++ (if forallb is_inherit pre then [HDR_PERM] else []))
       HDR_PERM = 1
  /\ (forall (piece : string) (info : inherit_info),
        lookup piece DACL_INHERITANCE_RIGHTS = Some info ->
        lookup piece DACL_BASIC_RIGHTS = None
        /\ lookup piece DACL_ADVANCED_RIGHTS = None).
Proof.
  intros Hc.
  assert (Hno : lookup token DACL_INHERITANCE_RIGHTS = None).
  { destruct (lookup token DACL_INHERITANCE_RIGHTS) as [info|] eqn:E; [|reflexivity].
    apply inherit_key_no_comma in E. congruence. }
  split; [exact Hno|]. split; [|split].
  - rewrite ace_loop_app. cbn [andb ace_loop]. rewrite Hno. reflexivity.
  - rewrite count_occ_app, ace_loop_count_perm, forallb_inherit_no_perm.
    cbn [andb]. now destruct (existsb is_perm pre).
  - intros piece info H. apply lookup_In in H. simpl in H.
    repeat (destruct H as [<-|H]; [split; reflexivity|]). destruct H.
Qed.

Lemma comma_token_takes_permission_branch_witness :
  contains "," "RD,OI" = true
  /\ lookup "RD,OI" DACL_INHERITANCE_RIGHTS = None
  /\ ace_loop false true true (["F"; "OI"] ++ "RD,OI" :: ["CI"])
     = [HDR_PERM;
        Print (TAB +:+ "+ (F): Full access");
        HDR_INHERIT;
        Print (TAB +:+ "+ (OI): Object Inherit (dir-only: True)");
        Print (TAB +:+ "+ (RD): Read data/list directory");
        Print (TAB +:+ "+ (OI): None");
        Print (TAB +:+ "+ (CI): Container Inherit (dir-only: True)")].
Proof.
  split; [reflexivity|].
  destruct (comma_token_takes_permission_branch false ["F"; "OI"] "RD,OI" ["CI"] eq_refl)
    as [H1 [H2 _]].
  split; [exact H1|]. rewrite H2. reflexivity.
Defined.

(** C9 as stated fails: on the tokens of [(F)(OI)(OI,CI)] the Permissions
    header was written for F and the Inheritance Rights header for OI, so
    the two entries of the bundle [OI,CI] follow the Inheritance Rights
    header: the header in force for them is not the Permissions one. *)
Lemma bundle_after_inheritance_header_counterexample :
  contains "," "OI,CI" = true
  /\ findall "(F)(OI)(OI,CI)" = ["F"; "OI"; "OI,CI"]
  /\ with_section None (ace_loop false true true (findall "(F)(OI)(OI,CI)"))
     = [(Some HDR_PERM, Print (TAB +:+ "+ (F): Full access"));
        (Some HDR_INHERIT, Print (TAB +:+ "+ (OI): Object Inherit (dir-only: True)"));
        (Some HDR_INHERIT, Print (TAB +:+ "+ (OI): None"));
        (Some HDR_INHERIT, Print (TAB +:+ "+ (CI): None"))]
  /\ ~ In (Some HDR_PERM, Print (TAB +:+ "+ (OI): None"))
          (with_section None (ace_loop false true true (findall "(F)(OI)(OI,CI)"))).
Proof.
  repeat split; try reflexivity.
  vm_compute. intros H.
  repeat (destruct H as [H|H]; [discriminate H|]). exact H.
Qed.

(** ** The two sections *)

(** C3 as stated fails: for the tokens of [(F)(OI)], which hold a
    permission and an inheritance entry, the loop prints the Permissions
    header and the entry of F first, then the Inheritance Rights header and
    the entry of OI; that is not the grouped layout. *)
Lemma grouped_sections_counterexample :
  existsb is_inherit (findall "(F)(OI)") = true
  /\ existsb is_perm (findall "(F)(OI)") = true
  /\ ace_loop false true true (findall "(F)(OI)")
     = [HDR_PERM; perm_entry "F"; HDR_INHERIT; inherit_entry "OI" "Object Inherit" true]
  /\ ace_loop false true true (findall "(F)(OI)")
     <> grouped_sections false (findall "(F)(OI)").
Proof.
  repeat split; try reflexivity.
  vm_compute. discriminate.
Qed.

(** C3 (amended): when the tokens hold both inheritance and permission
    entries, each of the two headers is printed exactly once; without the
    headers the output is the tokens' entries in token order, the two kinds
    interleaved as in the input; and the header of a kind comes
    immediately before the entries of the first token of that kind. *)
Theorem sections_follow_token_order (details : bool) (ace_list : list string) :
  existsb is_inherit ace_list = true ->
  existsb is_perm ace_list = true ->
  count_occ out_eq_dec (ace_loop details true true ace_list) HDR_INHERIT = 1
  /\ count_occ out_eq_dec (ace_loop details true true ace_list) HDR_PERM = 1
  /\ filter (fun o => negb (is_header o)) (ace_loop details true true ace_list)
     = flat_map (entry_lines details) ace_list
  /\ (forall (pre : list string) (ace : string) (post : list string),
        ace_list = pre ++ ace :: post ->
        forallb (fun a => Bool.eqb (is_inherit a) (is_perm ace)) pre = true ->
        exists tail : list out,
          ace_loop details true true ace_list
          = ace_loop details true true pre
            ++ section_header ace :: entry_lines details ace ++ tail).
Proof.
  intros Hi Hp. repeat split.
  - now rewrite ace_loop_count_inherit, Hi.
  - now rewrite ace_loop_count_perm, Hp.
  - apply ace_loop_entries.
  - intros pre ace post -> Hpre.
    rewrite ace_loop_app, ace_loop_cons. cbn [andb].
    eexists. f_equal.
    assert (Hflag : (if is_inherit ace then forallb is_perm pre
                     else forallb is_inherit pre) = true).
    { unfold is_perm in *. destruct (is_inherit ace); cbn [negb] in Hpre.
      - rewrite forallb_forall in *. intros a Ha. specialize (Hpre a Ha).
        now destruct (is_inherit a).
      - rewrite forallb_forall in *. intros a Ha. specialize (Hpre a Ha).
        now destruct (is_inherit a). }
    rewrite Hflag. reflexivity.
Qed.

Lemma sections_follow_token_order_witness :
  existsb is_inherit ["F"; "OI"] = true
  /\ existsb is_perm ["F"; "OI"] = true
  /\ count_occ out_eq_dec (ace_loop false true true ["F"; "OI"]) HDR_INHERIT = 1
  /\ count_occ out_eq_dec (ace_loop false true true ["F"; "OI"]) HDR_PERM = 1.
Proof.
  split; [reflexivity|]. split; [reflexivity|].
  destruct (sections_follow_token_order false ["F"; "OI"] eq_refl eq_refl)
    as [H1 [H2 _]].
  split; [exact H1 | exact H2].
Defined.

(** ** The tokenizer *)

Lemma findall_step (s : string) :
  findall s
  = match match_here s with
    | Some (g, rest) => g :: findall rest
    | None =>
        match s with
        | EmptyString => []
        | String _ s' => findall s'
        end
    end.
Proof.
  funelim (findall s).
  - rewrite e. reflexivity.
  - reflexivity.
  - rewrite e. reflexivity.
Qed.

(** The run found by [span_class] is made of class characters and is
    followed by the rest of the text, which does not start with one. *)
Lemma span_class_spec (s : string) :
  s = fst (span_class s) +:+ snd (span_class s)
  /\ all_class (fst (span_class s)) = true
  /\ match snd (span_class s) with
     | String y _ => in_class y = false
     | EmptyString => True
     end.
Proof.
  induction s as [|c s [IH1 [IH2 IH3]]]; simpl; [auto|].
  destruct (in_class c) eqn:Ec; simpl.
  - destruct (span_class s) as [run after]; simpl in *.
    rewrite Ec. repeat split; [now f_equal | assumption | assumption].
  - auto.
Qed.

Lemma span_class_run (g after : string) :
  all_class g = true ->
  match after with
  | String y _ => in_class y = false
  | EmptyString => True
  end ->
  span_class (g +:+ after) = (g, after).
Proof.
  intros Hg Hafter. induction g as [|c g IH]; simpl in *.
  - destruct after as [|y after]; simpl; [reflexivity | now rewrite Hafter].
  - apply andb_true_iff in Hg as [-> Hg]. now rewrite (IH Hg).
Qed.

(** The matcher against the meaning of the pattern: there is a match at
    the start of [s] with group [g] and remainder [rest] exactly when [s]
    is an opening parenthesis, the non-empty run [g] of class characters,
    a closing parenthesis, and [rest]. *)
Lemma match_here_spec (s g rest : string) :
  match_here s = Some (g, rest)
  <-> g <> EmptyString
      /\ all_class g = true
      /\ s = String "(" (g +:+ String ")" rest).
Proof.
  split.
  - destruct s as [|c s1]; simpl; [discriminate|].
    destruct (Ascii.eqb_spec c "(") as [->|_]; [|discriminate].
    destruct (span_class_spec s1) as [Hs [Hall _]].
    destruct (span_class s1) as [[|x g0] [|y rest0]]; try discriminate.
    destruct (Ascii.eqb_spec y ")") as [->|_]; [|discriminate].
    intros [= <- <-]. simpl in Hs, Hall.
    repeat split; [discriminate | exact Hall | now rewrite Hs].
  - intros [Hne [Hall ->]]. simpl.
    rewrite (span_class_run g (String ")" rest) Hall) by reflexivity.
    destruct g as [|x g0]; [now destruct Hne | reflexivity].
Qed.

(** A character outside the class that is no parenthesis ends every
    attempt to match: the tokens of a text cut at such a character are the
    tokens of the two parts. *)
Section Separator.

Variable d : ascii.
Hypothesis d_class : in_class d = false.
Hypothesis d_open : (d =? "(")%char = false.
Hypothesis d_close : (d =? ")")%char = false.

Lemma span_class_sep (a b : string) :
    span_class (a +:+ String d b)
    = (fst (span_class a), snd (span_class a) +:+ String d b).
Proof.
    induction a as [|c a IH]; simpl.
    - now rewrite d_class.
    - destruct (in_class c); [|reflexivity].
      rewrite IH. now destruct (span_class a).
Qed.

Lemma match_here_sep (a b : string) :
    match_here (a +:+ String d b)
    = match match_here a with
      | Some (g, rest) => Some (g, rest +:+ String d b)
      | None => None
      end.
Proof.
    destruct a as [|c a1]; simpl.
    - now rewrite d_open.
    - destruct (c =? "(")%char; [|reflexivity].
      rewrite span_class_sep.
      destruct (span_class a1) as [[|x g] [|y rest]]; simpl; try reflexivity.
      + now rewrite d_close.
      + now destruct (y =? ")")%char.
Qed.

Lemma findall_sep (a b : string) :
    findall (a +:+ String d b) = findall a ++ findall b.
Proof.
    remember (String.length a) as n eqn:Hn. revert a Hn.
    induction n as [n IH] using lt_wf_ind. intros a ->.
    rewrite (findall_step (a +:+ String d b)), (findall_step a), match_here_sep.
    destruct (match_here a) as [[g rest]|] eqn:E.
    - apply match_here_shorter in E.
      rewrite (IH _ E rest eq_refl). reflexivity.
    - destruct a as [|c a1]; [reflexivity|].
      simpl. apply (IH (String.length a1)); [simpl; lia | reflexivity].
Qed.

End Separator.

(** C6 (amended): on a line with a colon the ACE tokens are the
    parenthesized word/comma groups of the whole line, from left to right:
    the groups found before the last colon, in the file path or account
    portion, followed by the groups found in the rights string after it. *)
Theorem tokens_of_whole_line (line target current_dacl_string : string) :
  rsplit1 ":" line = Some (target, current_dacl_string) ->
  findall line = findall target ++ findall current_dacl_string.
Proof.
  intros H. apply rsplit1_Some in H as [-> _].
  now apply findall_sep.
Qed.

Lemma tokens_of_whole_line_witness :
  rsplit1 ":" "C:\Program Files (x86) BUILTIN\Users:(OI)(F)"
  = Some ("C:\Program Files (x86) BUILTIN\Users", "(OI)(F)")
  /\ findall "C:\Program Files (x86) BUILTIN\Users:(OI)(F)"
     = findall "C:\Program Files (x86) BUILTIN\Users" ++ findall "(OI)(F)".
Proof.
  split; [reflexivity|].
  apply (tokens_of_whole_line
           "C:\Program Files (x86) BUILTIN\Users:(OI)(F)"
           "C:\Program Files (x86) BUILTIN\Users" "(OI)(F)").
  reflexivity.
Defined.

(** C6 as stated fails: on [C:\Program Files (x86) BUILTIN\Users:(F)] the
    group [(x86)] stands before the last colon and is reported as a token,
    so the tokens are not those of the rights string [(F)]. *)
Lemma tokens_before_colon_counterexample :
  rsplit1 ":" "C:\Program Files (x86) BUILTIN\Users:(F)"
  = Some ("C:\Program Files (x86) BUILTIN\Users", "(F)")
  /\ findall "C:\Program Files (x86) BUILTIN\Users:(F)" = ["x86"; "F"]
  /\ findall "C:\Program Files (x86) BUILTIN\Users:(F)" <> findall "(F)".
Proof.
  repeat split; try reflexivity.
  vm_compute. discriminate.
Qed.

(** ** The identity of a line *)

Lemma initial_state_ok : state_ok initial_state.
Proof. intros _. reflexivity. Qed.

Lemma process_line_ok (details : bool) (st : loop_state) (line : string) :
  state_ok (fst (process_line details st line)).
Proof. rewrite process_line_state. intros H. discriminate H. Qed.

Lemma extract_identity_no_colon (st : loop_state) (line : string) :
  contains ":" line = false ->
  extract_identity st line = (target_file st, None, line).
Proof.
  intros H. apply rsplit1_None in H. unfold extract_identity. now rewrite H.
Qed.

(** C2 (amended): a line without a colon gets no SID Name line and no
    Target line; it is rendered exactly when the tokenizer finds a token
    in it, and then the DACL line shows the whole trimmed line and is
    followed by the headers and entries of the tokens and the blank
    line. *)
Theorem colonless_line_rendering (details : bool) (st : loop_state) (line : string) :
  state_ok st ->
  contains ":" line = false ->
  snd (process_line details st line)
  = match findall line with
    | [] => []
    | _ :: _ =>
        Log INFO ("DACL: " +:+ repr (strip line))
        :: ace_loop details true true (findall line) ++ [Print ""]
    end.
Proof.
  intros Hok Hc. rewrite process_line_printed, (extract_identity_no_colon _ _ Hc).
  destruct (findall line) as [|t ts]; [reflexivity|].
  cbn [fst snd log_sid]. unfold state_ok in Hok.
  destruct st as [tf first]; cbn [target_file is_first_line] in *.
  destruct first.
  - rewrite (Hok eq_refl). reflexivity.
  - destruct tf as [[|c f]|]; reflexivity.
Qed.

Lemma colonless_line_rendering_witness :
  state_ok initial_state
  /\ contains ":" "(OI)(F)" = false
  /\ snd (process_line false initial_state "(OI)(F)")
     = match findall "(OI)(F)" with
       | [] => []
       | _ :: _ =>
           Log INFO ("DACL: " +:+ repr (strip "(OI)(F)"))
           :: ace_loop false true true (findall "(OI)(F)") ++ [Print ""]
       end.
Proof.
  split; [exact initial_state_ok|]. split; [reflexivity|].
  apply (colonless_line_rendering false initial_state "(OI)(F)").
  - exact initial_state_ok.
  - reflexivity.
Defined.

(** C2 as stated fails: the line [(F)] has no colon, and the DACL line,
    the Permissions header, the entry of F and the blank line are printed
    for it. *)
Lemma colonless_line_counterexample :
  contains ":" "(F)" = false
  /\ snd (process_line false initial_state "(F)")
     = [Log INFO "DACL: '(F)'"; HDR_PERM; Print (TAB +:+ "+ (F): Full access"); Print ""]
  /\ snd (process_line false initial_state "(F)") <> [].
Proof.
  repeat split; try reflexivity.
  vm_compute. discriminate.
Qed.

(** C5 (amended): on the first line, when the target before the last
    colon holds a space, the target is cut at its last space, and the cut
    is kept exactly when the candidate file part as it stands, untrimmed,
    ends with NT: then the account is [NT] and a space before the
    candidate account, and the file is the candidate file part without the
    trailing NT and without surrounding whitespace; otherwise the account
    is the whole untrimmed target and no file is set. *)
Theorem identity_of_first_line (st : loop_state) (line target current_dacl_string : string) :
  is_first_line st = true ->
  rsplit1 ":" line = Some (target, current_dacl_string) ->
  contains " " target = true ->
  exists cand_file cand_account : string,
    target = cand_file +:+ String " " cand_account
    /\ contains " " cand_account = false
    /\ extract_identity st line
       = if endswith cand_file "NT" then
           (Some (strip (removesuffix cand_file "NT")),
            Some ("NT " +:+ cand_account),
            current_dacl_string)
         else (None, Some target, current_dacl_string).
Proof.
  intros Hfirst Hcolon Hspace.
  destruct (contains_rsplit1 _ _ Hspace) as [cf [ca E]].
  exists cf, ca. destruct (rsplit1_Some _ _ _ _ E) as [Ht Hca].
  split; [exact Ht|]. split; [exact Hca|].
  unfold extract_identity. rewrite Hcolon, Hfirst, E.
  now destruct (endswith cf "NT").
Qed.

Lemma identity_of_first_line_witness :
  exists cand_file cand_account : string,
    "C:\Data NT AUTHORITY\SYSTEM" = cand_file +:+ String " " cand_account
    /\ contains " " cand_account = false
    /\ extract_identity initial_state "C:\Data NT AUTHORITY\SYSTEM:(OI)(CI)(F)"
       = if endswith cand_file "NT" then
           (Some (strip (removesuffix cand_file "NT")),
            Some ("NT " +:+ cand_account),
            "(OI)(CI)(F)")
         else (None, Some "C:\Data NT AUTHORITY\SYSTEM", "(OI)(CI)(F)").
Proof.
  apply (identity_of_first_line initial_state
           "C:\Data NT AUTHORITY\SYSTEM:(OI)(CI)(F)"
           "C:\Data NT AUTHORITY\SYSTEM" "(OI)(CI)(F)");
    reflexivity.
Defined.

(** C5 as stated fails: on the first line [f NT  X:(F)], with two spaces
    before X, the candidate file part is [f NT] followed by a space; after
    trimming it ends with NT, yet the cut is discarded: the account is the
    whole target and no file is set. *)
Lemma trimmed_suffix_counterexample :
  rsplit1 ":" "f NT  X:(F)" = Some ("f NT  X", "(F)")
  /\ contains " " "f NT  X" = true
  /\ rsplit1 " " "f NT  X" = Some ("f NT ", "X")
  /\ endswith (strip "f NT ") "NT" = true
  /\ extract_identity initial_state "f NT  X:(F)" = (None, Some "f NT  X", "(F)")
  /\ extract_identity initial_state "f NT  X:(F)"
     <> (Some "f", Some "NT X", "(F)").
Proof.
  repeat split; try reflexivity.
  vm_compute. discriminate.
Qed.

(** ** The first line and the later ones *)

Lemma process_lines_cons (details : bool) (st : loop_state) (line : string)
  (rest : list string) :
  process_lines details st (line :: rest)
  = (fst (process_lines details (fst (process_line details st line)) rest),
     snd (process_line details st line)
     ++ snd (process_lines details (fst (process_line details st line)) rest)).
Proof.
  cbn [process_lines]. destruct (process_line details st line) as [st1 o1].
  cbn [fst snd]. now destruct (process_lines details st1 rest) as [st2 o2].
Qed.

Lemma extract_identity_later (st : loop_state) (line : string) :
  is_first_line st = false ->
  extract_identity st line
  = match rsplit1 ":" line with
    | Some (target, current_dacl_string) =>
        (target_file st, Some target, current_dacl_string)
    | None => (target_file st, None, line)
    end.
Proof.
  intros H. unfold extract_identity. rewrite H.
  now destruct (rsplit1 ":" line) as [[target cur]|].
Qed.

Lemma ace_loop_no_target (details fp fi : bool) (ace_list : list string) :
  Forall (fun o => is_target_line o = false) (ace_loop details fp fi ace_list).
Proof.
  revert fp fi. induction ace_list as [|ace rest IH]; intros fp fi; [constructor|].
  rewrite ace_loop_cons. repeat (apply Forall_app; split).
  - unfold section_header.
    destruct (if is_inherit ace then fi else fp), (is_inherit ace);
      repeat constructor.
  - unfold entry_lines.
    destruct (lookup ace DACL_INHERITANCE_RIGHTS) as [[[name desc] dir_only]|].
    + destruct details; repeat constructor.
    + apply Forall_forall. intros o Ho.
      apply in_map_iff in Ho as [p [<- _]]. reflexivity.
  - apply IH.
Qed.

Lemma process_line_later (details : bool) (st : loop_state) (line : string) :
  is_first_line st = false ->
  target_file (fst (process_line details st line)) = target_file st
  /\ Forall (fun o => is_target_line o = false) (snd (process_line details st line)).
Proof.
  intros H. rewrite process_line_state, process_line_printed, H.
  rewrite (extract_identity_later _ _ H). split.
  - now destruct (rsplit1 ":" line) as [[target cur]|].
  - destruct (findall line) as [|t ts]; [constructor|].
    repeat (apply Forall_app; split).
    + now destruct (fst (fst _)) as [[|c f]|].
    + destruct (snd (fst _)) as [[|c a]|]; repeat constructor.
    + repeat constructor.
    + apply ace_loop_no_target.
    + repeat constructor.
Qed.

Lemma process_lines_later (details : bool) (st : loop_state) (lines : list string) :
  is_first_line st = false ->
  target_file (fst (process_lines details st lines)) = target_file st
  /\ Forall (fun o => is_target_line o = false) (snd (process_lines details st lines)).
Proof.
  revert st. induction lines as [|line rest IH]; intros st H.
  - split; [reflexivity | constructor].
  - rewrite process_lines_cons. cbn [fst snd].
    destruct (process_line_later details st line H) as [Hf Ho].
    assert (H1 : is_first_line (fst (process_line details st line)) = false)
      by now rewrite process_line_state.
    destruct (IH _ H1) as [Hf' Ho'].
    split; [congruence | now apply Forall_app].
Qed.

(** C10: only the first line of the input can set the target file.  The
    first-line flag is false after the first iteration whatever the line
    is; the later lines leave the target file as the first line set it,
    and none of them prints a Target record. *)
Theorem target_file_from_first_line_only
  (details : bool) (line : string) (rest : list string) :
  is_first_line (fst (process_line details initial_state line)) = false
  /\ target_file (fst (process_lines details initial_state (line :: rest)))
     = target_file (fst (process_line details initial_state line))
  /\ snd (process_lines details initial_state (line :: rest))
     = snd (process_line details initial_state line)
       ++ snd (process_lines details (fst (process_line details initial_state line)) rest)
  /\ Forall (fun o => is_target_line o = false)
       (snd (process_lines details (fst (process_line details initial_state line)) rest)).
Proof.
  assert (H1 : is_first_line (fst (process_line details initial_state line)) = false)
    by now rewrite process_line_state.
  destruct (process_lines_later details _ rest H1) as [Hf Ho].
  rewrite process_lines_cons. cbn [fst snd]. repeat split; assumption.
Qed.

(** ** The command line *)

(** C7 (amended): with the [-list] option, the program writes the usage
    error alone and exits with status 1 when a non-empty DACL_STRING is
    given too; otherwise, the DACL_STRING being absent or empty, it writes
    the banner and the requested tables and exits with status 0. *)
Theorem list_option_outcome (e : env) (argv : args) (choice : list_choice) :
  list_ argv = Some choice ->
  main e argv
  = if truthy (dacl_string argv) then ([Log ERROR MSG_CONFLICT], 1)
    else (banner e argv ++ list_tables (debug argv) choice, 0).
Proof.
  intros H. unfold main, list_mode. rewrite H. cbn [is_some].
  rewrite andb_true_r. now destruct (truthy (dacl_string argv)).
Qed.

Lemma list_option_outcome_witness :
  list_ (list_all_with (Some "Users:(F)")) = Some all
  /\ main no_version_no_stdin (list_all_with (Some "Users:(F)"))
     = ([Log ERROR MSG_CONFLICT], 1).
Proof.
  split; [reflexivity|].
  rewrite (list_option_outcome no_version_no_stdin
             (list_all_with (Some "Users:(F)")) all eq_refl).
  reflexivity.
Defined.

(** C7 as stated fails: with [-list all] and an empty DACL_STRING both
    given, no usage error is reported; the three tables are printed and the
    exit status is 0. *)
Lemma empty_dacl_string_counterexample :
  list_ (list_all_with (Some "")) = Some all
  /\ dacl_string (list_all_with (Some "")) = Some ""
  /\ main no_version_no_stdin (list_all_with (Some ""))
     = (list_tables false all, 0)
  /\ main no_version_no_stdin (list_all_with (Some ""))
     <> ([Log ERROR MSG_CONFLICT], 1).
Proof.
  repeat split; try reflexivity.
  intros H. apply (f_equal snd) in H. discriminate H.
Qed.


(** * Further properties *)

(** ** The tokenizer on its own *)

Lemma contains_app_sep (c : ascii) (a b : string) :
  contains c (a +:+ String c b) = true.
Proof.
  induction a as [|x a IH]; simpl.
  - now rewrite Ascii.eqb_refl.
  - rewrite IH. apply orb_true_r.
Qed.

Lemma findall_no_open (s : string) :
  contains "(" s = false -> findall s = [].
Proof.
  induction s as [|c s IH]; intros H; rewrite findall_step; [reflexivity|].
  simpl in H. apply orb_false_iff in H as [Hc Hs].
  simpl. rewrite Hc. now apply IH.
Qed.

Lemma findall_no_close (s : string) :
  contains ")" s = false -> findall s = [].
Proof.
  induction s as [|c s IH]; intros H; rewrite findall_step; [reflexivity|].
  destruct (match_here (String c s)) as [[g rest]|] eqn:E.
  - apply match_here_spec in E as [_ [_ E]]. rewrite E in H.
    simpl in H. rewrite contains_app_sep in H. discriminate H.
  - simpl in H. apply orb_false_iff in H as [_ Hs]. now apply IH.
Qed.

(** X1: every token the tokenizer reports is a non-empty run of word
    characters and commas. *)
Theorem findall_tokens_wellformed (s : string) :
  Forall token_ok (findall s).
Proof.
  remember (String.length s) as n eqn:Hn. revert s Hn.
  induction n as [n IH] using lt_wf_ind. intros s ->.
  rewrite findall_step.
  destruct (match_here s) as [[g rest]|] eqn:E.
  - constructor.
    + apply match_here_spec in E as [Hne [Hall _]]. now split.
    + apply (IH (String.length rest)); [|reflexivity].
      now apply match_here_shorter in E.
  - destruct s as [|c s1]; [constructor|].
    apply (IH (String.length s1)); [simpl; lia | reflexivity].
Qed.

(** X2: tokenizing the rights string written for a list of well-formed
    groups gives the groups back, in order. *)
Theorem findall_rights_string (groups : list string) :
  Forall token_ok groups ->
  findall (rights_string groups) = groups.
Proof.
  induction 1 as [|g gs [Hne Hall] _ IH]; [reflexivity|].
  rewrite findall_step. cbn [rights_string].
  assert (E : match_here (String "(" (g +:+ String ")" (rights_string gs)))
              = Some (g, rights_string gs))
    by (apply match_here_spec; auto).
  rewrite E, IH. reflexivity.
Qed.

Lemma findall_rights_string_witness :
  Forall token_ok ["OI"; "CI"; "RD,WD"]
  /\ findall (rights_string ["OI"; "CI"; "RD,WD"]) = ["OI"; "CI"; "RD,WD"].
Proof.
  assert (H : Forall token_ok ["OI"; "CI"; "RD,WD"]).
  { repeat constructor; discriminate. }
  split; [exact H | exact (findall_rights_string _ H)].
Defined.

(** X3: a line that lacks an opening parenthesis, or lacks a closing one,
    has no token, and nothing is printed for it. *)
Theorem line_without_parenthesis_is_silent
  (details : bool) (st : loop_state) (line : string) :
  contains "(" line = false \/ contains ")" line = false ->
  findall line = [] /\ snd (process_line details st line) = [].
Proof.
  intros H.
  assert (E : findall line = [])
    by (destruct H; [now apply findall_no_open | now apply findall_no_close]).
  split; [exact E|]. rewrite process_line_printed, E. reflexivity.
Qed.

Lemma line_without_parenthesis_is_silent_witness :
  (contains "(" "BUILTIN\Users:F" = false \/ contains ")" "BUILTIN\Users:F" = false)
  /\ findall "BUILTIN\Users:F" = []
  /\ snd (process_line true initial_state "BUILTIN\Users:F") = [].
Proof.
  assert (H : contains "(" "BUILTIN\Users:F" = false
              \/ contains ")" "BUILTIN\Users:F" = false) by (left; reflexivity).
  split; [exact H|].
  exact (line_without_parenthesis_is_silent true initial_state "BUILTIN\Users:F" H).
Defined.

(** X4: when the part of a line before its last colon holds no opening
    parenthesis, the tokens of the line are those of the rights string
    after the colon. *)
Theorem tokens_of_rights_string_only (line target current_dacl_string : string) :
  rsplit1 ":" line = Some (target, current_dacl_string) ->
  contains "(" target = false ->
  findall line = findall current_dacl_string.
Proof.
  intros H Ht. apply rsplit1_Some in H as [-> _].
  rewrite (findall_sep ":"%char) by reflexivity.
  now rewrite (findall_no_open _ Ht).
Qed.

Lemma tokens_of_rights_string_only_witness :
  rsplit1 ":" "C:\Data BUILTIN\Users:(OI)(F)" = Some ("C:\Data BUILTIN\Users", "(OI)(F)")
  /\ contains "(" "C:\Data BUILTIN\Users" = false
  /\ findall "C:\Data BUILTIN\Users:(OI)(F)" = findall "(OI)(F)".
Proof.
  split; [reflexivity|]. split; [reflexivity|].
  exact (tokens_of_rights_string_only "C:\Data BUILTIN\Users:(OI)(F)"
           "C:\Data BUILTIN\Users" "(OI)(F)" eq_refl eq_refl).
Defined.

(** ** What a rendered line is made of *)

Lemma inherit_detail_is_detail (desc : string) :
  is_detail_line (inherit_detail desc) = true.
Proof. reflexivity. Qed.

Lemma inherit_entry_not_detail (ace name : string) (dir_only : bool) :
  is_detail_line (inherit_entry ace name dir_only) = false.
Proof. reflexivity. Qed.

Lemma perm_entry_not_detail (ace_key : string) :
  is_detail_line (perm_entry ace_key) = false.
Proof. reflexivity. Qed.

Lemma filter_none {A : Type} (p : A -> bool) (l : list A) :
  Forall (fun x => p x = false) l -> filter p l = [].
Proof.
  induction 1 as [|x l Hx _ IH]; [reflexivity|]. simpl. now rewrite Hx.
Qed.

Lemma filter_all {A : Type} (p : A -> bool) (l : list A) :
  Forall (fun x => p x = true) l -> filter p l = l.
Proof.
  induction 1 as [|x l Hx _ IH]; [reflexivity|]. simpl. now rewrite Hx, IH.
Qed.

(** The loop writes nothing but section headers, entry lines and detail
    lines. *)
Lemma ace_loop_kinds (details fp fi : bool) (ace_list : list string) :
  Forall (fun o => is_header o || is_entry_line o || is_detail_line o = true)
    (ace_loop details fp fi ace_list).
Proof.
  revert fp fi. induction ace_list as [|ace rest IH]; intros fp fi; [constructor|].
  rewrite ace_loop_cons. repeat (apply Forall_app; split).
  - unfold section_header.
    destruct (if is_inherit ace then fi else fp), (is_inherit ace);
      repeat constructor.
  - unfold entry_lines.
    destruct (lookup ace DACL_INHERITANCE_RIGHTS) as [[[name desc] dir_only]|].
    + constructor.
      * now rewrite inherit_entry_is_entry, orb_true_r.
      * destruct details; constructor; [|constructor].
        now rewrite inherit_detail_is_detail, orb_true_r.
    + apply Forall_forall. intros o Ho.
      apply in_map_iff in Ho as [p [<- _]].
      now rewrite perm_entry_is_entry, orb_true_r.
  - apply IH.
Qed.

Lemma ace_loop_no_blank (details fp fi : bool) (ace_list : list string) :
  count_occ out_eq_dec (ace_loop details fp fi ace_list) (Print "") = 0.
Proof.
  apply count_occ_not_In. intros Hin.
  pose proof (ace_loop_kinds details fp fi ace_list) as H.
  rewrite Forall_forall in H. specialize (H _ Hin). discriminate H.
Qed.

Lemma log_target_no_blank (tf : option string) (first : bool) :
  count_occ out_eq_dec (log_target tf first) (Print "") = 0.
Proof. destruct tf as [[|c f]|], first; reflexivity. Qed.

Lemma log_sid_no_blank (account : option string) :
  count_occ out_eq_dec (log_sid account) (Print "") = 0.
Proof. now destruct account as [[|c a]|]. Qed.

Lemma process_line_blank (details : bool) (st : loop_state) (line : string) :
  count_occ out_eq_dec (snd (process_line details st line)) (Print "")
  = if has_tokens line then 1 else 0.
Proof.
  rewrite process_line_printed. unfold has_tokens.
  destruct (findall line) as [|t ts]; [reflexivity|].
  rewrite !count_occ_app, log_target_no_blank, log_sid_no_blank, ace_loop_no_blank.
  reflexivity.
Qed.

(** X5: in the per-line loop, the separator record of [print()] without
    argument is written once for each input line that holds at least one
    token and never otherwise: over the loop, the number of these records
    is the number of such lines.  (The newline that ends the Target
    record and the records of the listing mode are not part of the
    loop's separator records.) *)
Theorem one_blank_line_per_rendered_line
  (details : bool) (st : loop_state) (lines : list string) :
  count_occ out_eq_dec (snd (process_lines details st lines)) (Print "")
  = List.length (filter has_tokens lines).
Proof.
  revert st. induction lines as [|line rest IH]; intros st; [reflexivity|].
  rewrite process_lines_cons. cbn [snd filter].
  rewrite count_occ_app, process_line_blank, IH.
  now destruct (has_tokens line).
Qed.

Lemma log_sid_no_target (account : option string) :
  Forall (fun o => is_target_line o = false) (log_sid account).
Proof. destruct account as [[|c a]|]; repeat constructor. Qed.

(** X6: a run prints at most one Target record, and when it prints one
    it is the first record of the run. *)
Theorem target_record_first_and_only (details : bool) (lines : list string) :
  filter is_target_line (snd (process_lines details initial_state lines)) = []
  \/ exists (f : string) (tail : list out),
       snd (process_lines details initial_state lines)
       = Log INFO ("Target: " +:+ f +:+ NL) :: tail
       /\ filter is_target_line tail = [].
Proof.
  destruct lines as [|line rest]; [now left|].
  rewrite process_lines_cons. cbn [snd].
  assert (H1 : is_first_line (fst (process_line details initial_state line)) = false)
    by now rewrite process_line_state.
  destruct (process_lines_later details _ rest H1) as [_ Hrest].
  apply filter_none in Hrest.
  rewrite process_line_printed.
  destruct (findall line) as [|t ts] eqn:E.
  - left. exact Hrest.
  - cbn [is_first_line initial_state].
    set (body := log_sid _ ++ _).
    assert (Hbody : filter is_target_line body = []).
    { unfold body. rewrite !filter_app.
      rewrite (filter_none _ _ (log_sid_no_target _)).
      rewrite (filter_none _ _ (ace_loop_no_target _ _ _ _)). reflexivity. }
    destruct (fst (fst (extract_identity initial_state line))) as [[|c f]|];
      cbn [log_target app].
    + left. now rewrite filter_app, Hbody, Hrest.
    + right. exists (String c f). eexists. split; [reflexivity|].
      now rewrite filter_app, Hbody, Hrest.
    + left. now rewrite filter_app, Hbody, Hrest.
Qed.

Lemma process_line_stateless (details : bool) (st : loop_state) (line : string) :
  is_first_line st = false ->
  snd (process_line details st line) = snd (process_line details later_state line).
Proof.
  intros H. rewrite !process_line_printed.
  rewrite (extract_identity_later st line H), (extract_identity_later later_state line eq_refl).
  rewrite H. cbn [is_first_line later_state target_file].
  destruct (findall line) as [|t ts]; [reflexivity|].
  destruct (rsplit1 ":" line) as [[target cur]|]; cbn [fst snd];
    now destruct (target_file st) as [[|c f]|].
Qed.

(** X7: after the first line every line is rendered on its own: what is
    printed for the later lines is the concatenation of what each line
    prints by itself, whatever the lines before it were. *)
Theorem later_lines_rendered_independently
  (details : bool) (st : loop_state) (lines : list string) :
  is_first_line st = false ->
  snd (process_lines details st lines)
  = flat_map (fun line => snd (process_line details later_state line)) lines.
Proof.
  revert st. induction lines as [|line rest IH]; intros st H; [reflexivity|].
  rewrite process_lines_cons. cbn [snd flat_map].
  rewrite (process_line_stateless details st line H). f_equal.
  apply IH. now rewrite process_line_state.
Qed.

Lemma later_lines_rendered_independently_witness :
  is_first_line (fst (process_line false initial_state "C:\x NT SYSTEM:(F)")) = false
  /\ snd (process_lines false (fst (process_line false initial_state "C:\x NT SYSTEM:(F)"))
            ["Users:(RX)"; "Guests:(R)"])
     = flat_map (fun line => snd (process_line false later_state line))
         ["Users:(RX)"; "Guests:(R)"].
Proof.
  split; [reflexivity|].
  exact (later_lines_rendered_independently false
           (fst (process_line false initial_state "C:\x NT SYSTEM:(F)"))
           ["Users:(RX)"; "Guests:(R)"] eq_refl).
Defined.

(** ** The [-details] option *)

Lemma entry_lines_without_details (ace : string) :
  filter (fun o => negb (is_detail_line o)) (entry_lines true ace)
  = entry_lines false ace.
Proof.
  unfold entry_lines.
  destruct (lookup ace DACL_INHERITANCE_RIGHTS) as [[[name desc] dir_only]|].
  - reflexivity.
  - apply filter_all, Forall_forall. intros o Ho.
    apply in_map_iff in Ho as [p [<- _]]. reflexivity.
Qed.

Lemma entry_lines_details_count (ace : string) :
  List.length (filter is_detail_line (entry_lines true ace))
  = if is_inherit ace then 1 else 0.
Proof.
  unfold entry_lines, is_inherit.
  destruct (lookup ace DACL_INHERITANCE_RIGHTS) as [[[name desc] dir_only]|].
  - reflexivity.
  - cbn [is_some]. rewrite filter_none; [reflexivity|].
    apply Forall_forall. intros o Ho.
    apply in_map_iff in Ho as [p [<- _]]. reflexivity.
Qed.

Lemma header_not_detail (b : bool) (ace : string) (p : out -> bool) :
  (forall o, is_header o = true -> p o = true) ->
  filter p (if b then [section_header ace] else [])
  = if b then [section_header ace] else [].
Proof.
  intros Hp. destruct b; [|reflexivity]. cbn [filter].
  rewrite Hp; [reflexivity|]. unfold section_header. now destruct (is_inherit ace).
Qed.

Lemma ace_loop_without_details (fp fi : bool) (ace_list : list string) :
  filter (fun o => negb (is_detail_line o)) (ace_loop true fp fi ace_list)
  = ace_loop false fp fi ace_list.
Proof.
  revert fp fi. induction ace_list as [|ace rest IH]; intros fp fi; [reflexivity|].
  rewrite !ace_loop_cons, !filter_app, IH, entry_lines_without_details.
  rewrite header_not_detail; [reflexivity|].
  intros [[] msg|text]; simpl; congruence.
Qed.

Lemma ace_loop_details_count (fp fi : bool) (ace_list : list string) :
  List.length (filter is_detail_line (ace_loop true fp fi ace_list))
  = List.length (filter is_inherit ace_list).
Proof.
  revert fp fi. induction ace_list as [|ace rest IH]; intros fp fi; [reflexivity|].
  rewrite ace_loop_cons, !filter_app, !length_app, IH, entry_lines_details_count.
  assert (H0 : filter is_detail_line
                 (if (if is_inherit ace then fi else fp) then [section_header ace] else [])
               = []).
  { unfold section_header.
    destruct (if is_inherit ace then fi else fp), (is_inherit ace); reflexivity. }
  rewrite H0. cbn [filter List.length]. now destruct (is_inherit ace).
Qed.

Lemma log_target_not_detail (tf : option string) (first : bool) (p : out -> bool) :
  (forall lv msg, p (Log lv msg) = true) ->
  filter p (log_target tf first) = log_target tf first.
Proof.
  intros Hp. destruct tf as [[|c f]|], first; cbn; rewrite ?Hp; reflexivity.
Qed.

Lemma log_sid_not_detail (account : option string) (p : out -> bool) :
  (forall lv msg, p (Log lv msg) = true) ->
  filter p (log_sid account) = log_sid account.
Proof.
  intros Hp. destruct account as [[|c a]|]; cbn; rewrite ?Hp; reflexivity.
Qed.

(** X8: the [-details] option only adds lines: removing the detail lines
    from what a line prints with the option gives what it prints without
    it, and the option adds one detail line per inheritance token. *)
Theorem details_only_adds_detail_lines (st : loop_state) (line : string) :
  filter (fun o => negb (is_detail_line o)) (snd (process_line true st line))
  = snd (process_line false st line)
  /\ List.length (filter is_detail_line (snd (process_line true st line)))
     = List.length (filter is_inherit (findall line)).
Proof.
  rewrite !process_line_printed.
  destruct (findall line) as [|t ts]; [split; reflexivity|]. split.
  - rewrite !filter_app, ace_loop_without_details.
    rewrite log_target_not_detail, log_sid_not_detail by reflexivity.
    reflexivity.
  - rewrite !filter_app, !length_app, ace_loop_details_count.
    rewrite (filter_none is_detail_line (log_target _ _)).
    + rewrite (filter_none is_detail_line (log_sid _)).
      * set (n := List.length (filter is_inherit (t :: ts))). cbn. lia.
      * destruct (snd (fst _)) as [[|c a]|]; repeat constructor.
    + destruct (fst (fst _)) as [[|c f]|], (is_first_line st); repeat constructor.
Qed.

(** ** Descriptions and headers *)

(** X9: a code is described exactly when the Basic or the Advanced table
    holds it, and the description is the one of the table that holds it;
    a code in neither table has no description. *)
Theorem describe_from_its_table (ace_key desc : string) :
  describe ace_key = Some desc
  <-> lookup ace_key DACL_BASIC_RIGHTS = Some desc
      \/ lookup ace_key DACL_ADVANCED_RIGHTS = Some desc.
Proof.
  unfold describe. split.
  - destruct (lookup ace_key DACL_BASIC_RIGHTS) as [d|]; [left; assumption | right; assumption].
  - intros [Hb|Ha].
    + now rewrite Hb.
    + destruct (lookup ace_key DACL_BASIC_RIGHTS) as [d|] eqn:Hb; [|exact Ha].
      exfalso. apply lookup_In in Hb. apply lookup_In in Ha.
      apply (disjointb_sound (keys DACL_BASIC_RIGHTS) (keys DACL_ADVANCED_RIGHTS) ace_key);
        [reflexivity | now split].
Qed.

(** X10: for any list of tokens, the Inheritance Rights header is printed
    once when some token is an inheritance key and not at all otherwise,
    and the Permissions header is printed once when some token is not an
    inheritance key and not at all otherwise. *)
Theorem header_once_per_kind (details : bool) (ace_list : list string) :
  count_occ out_eq_dec (ace_loop details true true ace_list) HDR_INHERIT
  = (if existsb is_inherit ace_list then 1 else 0)
  /\ count_occ out_eq_dec (ace_loop details true true ace_list) HDR_PERM
     = (if existsb is_perm ace_list then 1 else 0).
Proof.
  split.
  - now rewrite ace_loop_count_inherit.
  - now rewrite ace_loop_count_perm.
Qed.

(** ** The main block *)

(** X11: for a command line that the argument parser accepted, and a
    read of standard input that returns its content or is interrupted from
    the keyboard, the main block ends with status 1 in two cases only, a
    non-empty DACL_STRING given together with [-list], and the interrupted
    read when neither [-list] nor a non-empty DACL_STRING is given; it
    ends with status 0 in every other case. *)
Theorem exit_status_cases (e : env) (argv : args) :
  snd (main e argv)
  = if (truthy (dacl_string argv) && is_some (list_ argv))
       || (negb (is_some (list_ argv)) && negb (truthy (dacl_string argv))
           && negb (is_some (stdin_read e)))
    then 1 else 0.
Proof.
  unfold main, read_input.
  destruct (list_ argv) as [choice|], (dacl_string argv) as [[|c s]|],
    (stdin_read e) as [input|]; reflexivity.
Qed.

(** X12: standard input is not consulted when a non-empty DACL_STRING or
    the [-list] option is given: the run is the same whatever standard
    input holds, also when reading it would be interrupted. *)
Theorem stdin_not_consulted (e : env) (argv : args) (in1 in2 : option string) :
  truthy (dacl_string argv) = true \/ is_some (list_ argv) = true ->
  main (with_stdin in1 e) argv = main (with_stdin in2 e) argv.
Proof.
  unfold main, read_input, banner, with_stdin. cbn [TOOL_VERSION stdin_read].
  destruct (list_ argv) as [choice|], (dacl_string argv) as [[|c s]|];
    cbn [truthy is_some andb]; intros [H|H]; try discriminate H; reflexivity.
Qed.

Lemma stdin_not_consulted_witness :
  (truthy (dacl_string (list_all_with None)) = true
   \/ is_some (list_ (list_all_with None)) = true)
  /\ main (with_stdin None no_version_no_stdin) (list_all_with None)
     = main (with_stdin (Some "Users:(F)") no_version_no_stdin) (list_all_with None).
Proof.
  assert (H : truthy (dacl_string (list_all_with None)) = true
              \/ is_some (list_ (list_all_with None)) = true) by (right; reflexivity).
  split; [exact H|].
  exact (stdin_not_consulted no_version_no_stdin (list_all_with None)
           None (Some "Users:(F)") H).
Defined.

Lemma rows_not_debug {A : Type} (f : A -> string) (l : list A) :
  filter (fun o => negb (is_debug o)) (map (fun x => Print (f x)) l)
  = map (fun x => Print (f x)) l.
Proof. induction l as [|x l IH]; simpl; [reflexivity | now rewrite IH]. Qed.

Lemma pprint_dacl_debug (name : string) (dacl_list : dict dacl_value) :
  filter (fun o => negb (is_debug o)) (pprint_dacl true name dacl_list)
  = pprint_dacl false name dacl_list.
Proof.
  unfold pprint_dacl. rewrite !filter_app, rows_not_debug. reflexivity.
Qed.

Lemma list_tables_debug (choice : list_choice) :
  filter (fun o => negb (is_debug o)) (list_tables true choice)
  = list_tables false choice.
Proof.
  destruct choice; unfold list_tables; rewrite ?filter_app, !pprint_dacl_debug;
    reflexivity.
Qed.

Lemma ace_loop_not_debug (details fp fi : bool) (ace_list : list string) :
  Forall (fun o => negb (is_debug o) = true) (ace_loop details fp fi ace_list).
Proof.
  eapply Forall_impl; [|apply ace_loop_kinds].
  intros [[] msg|text]; simpl; congruence.
Qed.

Lemma process_line_not_debug (details : bool) (st : loop_state) (line : string) :
  Forall (fun o => negb (is_debug o) = true) (snd (process_line details st line)).
Proof.
  rewrite process_line_printed.
  destruct (findall line) as [|t ts]; [constructor|].
  repeat (apply Forall_app; split).
  - destruct (fst (fst _)) as [[|c f]|], (is_first_line st); repeat constructor.
  - destruct (snd (fst _)) as [[|c a]|]; repeat constructor.
  - repeat constructor.
  - apply ace_loop_not_debug.
  - repeat constructor.
Qed.

Lemma process_lines_not_debug (details : bool) (st : loop_state) (lines : list string) :
  Forall (fun o => negb (is_debug o) = true) (snd (process_lines details st lines)).
Proof.
  revert st. induction lines as [|line rest IH]; intros st; [constructor|].
  rewrite process_lines_cons. cbn [snd]. apply Forall_app. split.
  - apply process_line_not_debug.
  - apply IH.
Qed.

Lemma banner_debug (e : env) (b : bool) (argv : args) :
  banner e (with_debug b argv) = banner e argv
  /\ filter (fun o => negb (is_debug o)) (banner e argv) = banner e argv.
Proof.
  unfold banner, with_debug. cbn [no_banner].
  destruct (TOOL_VERSION e) as [[|c v]|], (no_banner argv); split; reflexivity.
Qed.

Lemma run_loop_debug (argv : args) (input : string) :
  filter (fun o => negb (is_debug o)) (run_loop (with_debug true argv) input)
  = run_loop (with_debug false argv) input.
Proof.
  unfold run_loop, with_debug. cbn [debug details log_debug filter is_debug negb app].
  apply filter_all, process_lines_not_debug.
Qed.

(** X13: the [-debug] option only adds DEBUG records: removing them from
    what a run writes with the option gives what the same run writes
    without it, and the exit status is the same. *)
Theorem debug_only_adds_debug_records (e : env) (argv : args) :
  filter (fun o => negb (is_debug o)) (fst (main e (with_debug true argv)))
  = fst (main e (with_debug false argv))
  /\ snd (main e (with_debug true argv)) = snd (main e (with_debug false argv)).
Proof.
  split.
  2:{ unfold main, read_input. cbn [with_debug dacl_string list_ debug].
      destruct (list_ argv) as [choice|], (dacl_string argv) as [[|c s]|],
        (stdin_read e) as [input|]; reflexivity. }
  unfold main, list_mode, read_input.
  destruct (banner_debug e true argv) as [-> Hb].
  destruct (banner_debug e false argv) as [-> _].
  cbn [with_debug dacl_string list_ debug].
  destruct (list_ argv) as [choice|], (dacl_string argv) as [[|c s]|];
    cbn [truthy is_some andb fst snd app].
  - now rewrite filter_app, Hb, list_tables_debug.
  - reflexivity.
  - now rewrite filter_app, Hb, list_tables_debug.
  - destruct (stdin_read e) as [input|]; cbn [fst app log_debug].
    + rewrite filter_app, Hb. cbn [filter is_debug negb].
      now rewrite <- run_loop_debug.
    + rewrite filter_app, Hb. reflexivity.
  - rewrite filter_app, Hb. now rewrite <- run_loop_debug.
  - destruct (stdin_read e) as [input|]; cbn [fst app log_debug].
    + rewrite filter_app, Hb. cbn [filter is_debug negb].
      now rewrite <- run_loop_debug.
    + rewrite filter_app, Hb. reflexivity.
Qed.

(** X14: unless the usage error is reported, what a run writes is the
    banner followed by what the same run writes when no version of the
    package is installed; the exit status does not depend on the
    version. *)
Theorem banner_comes_first (e : env) (argv : args) :
  truthy (dacl_string argv) && is_some (list_ argv) = false ->
  fst (main e argv) = banner e argv ++ fst (main (without_version e) argv)
  /\ snd (main e argv) = snd (main (without_version e) argv).
Proof.
  intros H. split.
  2:{ unfold main, read_input. rewrite H.
      change (stdin_read (without_version e)) with (stdin_read e).
      destruct (list_ argv) as [choice|], (dacl_string argv) as [[|c s]|],
        (stdin_read e) as [input|]; reflexivity. }
  unfold main, read_input. rewrite H.
  change (stdin_read (without_version e)) with (stdin_read e).
  change (banner (without_version e) argv) with (@nil out).
  destruct (list_ argv) as [choice|], (dacl_string argv) as [[|c s]|];
    cbn [is_some fst]; try reflexivity;
    destruct (stdin_read e) as [input|]; reflexivity.
Qed.

Lemma banner_comes_first_witness :
  truthy (dacl_string (with_banner_list basic)) && is_some (list_ (with_banner_list basic))
  = false
  /\ banner version_0_1 (with_banner_list basic)
     = [Print ("icacls2h v0.1 - by MatrixEditor" +:+ NL)]
  /\ fst (main version_0_1 (with_banner_list basic))
     = Print ("icacls2h v0.1 - by MatrixEditor" +:+ NL)
       :: fst (main (without_version version_0_1) (with_banner_list basic))
  /\ snd (main version_0_1 (with_banner_list basic))
     = snd (main (without_version version_0_1) (with_banner_list basic)).
Proof.
  split; [reflexivity|]. split; [reflexivity|].
  destruct (banner_comes_first version_0_1 (with_banner_list basic) eq_refl)
    as [H1 H2].
  split; [rewrite H1; reflexivity | exact H2].
Defined.

(** ** Splitting and trimming *)

(** X15: the pieces a token is split into at its commas hold no comma,
    and joined with commas they give the token back. *)
Theorem split_pieces_rejoin (sep : ascii) (s : string) :
  Forall (fun p => contains sep p = false) (split sep s)
  /\ join sep (split sep s) = s.
Proof.
  induction s as [|c s [IHf IHj]]; [split; [repeat constructor | reflexivity]|].
  pose proof (split_length sep s) as Hlen.
  cbn [split]. destruct (Ascii.eqb_spec c sep) as [->|Hc].
  - split; [constructor; [reflexivity | exact IHf]|].
    destruct (split sep s) as [|p ps]; [discriminate Hlen|].
    cbn [join]. cbn [join] in IHj. now rewrite IHj.
  - destruct (split sep s) as [|p ps]; [discriminate Hlen|].
    apply Forall_cons_iff in IHf as [Hp Hps]. split.
    + constructor; [|exact Hps]. simpl. rewrite Hp.
      apply Ascii.eqb_neq in Hc. now rewrite Hc.
    + destruct ps as [|q qs]; cbn [join] in *; now rewrite <- IHj.
Qed.

Lemma rstrip_idempotent (s : string) : rstrip (rstrip s) = rstrip s.
Proof.
  induction s as [|c s IH]; [reflexivity|]. cbn [rstrip].
  destruct (rstrip s) as [|d r] eqn:E.
  - destruct (is_space c) eqn:Ec; [reflexivity|]. cbn [rstrip]. now rewrite Ec.
  - cbn [rstrip]. cbn [rstrip] in IH. now rewrite IH.
Qed.

Lemma lstrip_head (s : string) :
  match lstrip s with
  | EmptyString => True
  | String c _ => is_space c = false
  end.
Proof.
  induction s as [|c s IH]; simpl; [exact I|].
  destruct (is_space c) eqn:Ec; [exact IH | exact Ec].
Qed.

Lemma rstrip_head (c : ascii) (r : string) :
  is_space c = false -> exists r', rstrip (String c r) = String c r'.
Proof.
  intros Hc. cbn [rstrip]. destruct (rstrip r) as [|d r'].
  - rewrite Hc. eauto.
  - eauto.
Qed.

(** X16: the result of [strip] has no whitespace left at either end:
    stripping it again, on the left, on the right or on both sides,
    changes nothing. *)
Theorem strip_leaves_nothing_to_strip (s : string) :
  lstrip (strip s) = strip s
  /\ rstrip (strip s) = strip s
  /\ strip (strip s) = strip s.
Proof.
  assert (Hl : lstrip (strip s) = strip s).
  { unfold strip. pose proof (lstrip_head s) as H.
    destruct (lstrip s) as [|c r]; [reflexivity|].
    destruct (rstrip_head c r H) as [r' ->]. simpl. now rewrite H. }
  assert (Hr : rstrip (strip s) = strip s) by apply rstrip_idempotent.
  repeat split; try assumption.
  unfold strip at 1. now rewrite Hl, Hr.
Qed.

Lemma splitlines_break (c : ascii) (s : string) :
  is_linebreak c = true ->
  exists t : string,
    splitlines (String c s) = EmptyString :: splitlines t
    /\ String.length t <= String.length s.
Proof.
  intros H. cbn [splitlines]. rewrite H.
  destruct c as [[] [] [] [] [] [] [] []];
    try discriminate H; try (exists s; split; [reflexivity | lia]).
  destruct s as [|d s']; [exists EmptyString; split; [reflexivity | lia]|].
  destruct d as [[] [] [] [] [] [] [] []];
    try (eexists; split; [reflexivity | simpl; lia]).
Qed.

Lemma splitlines_char (c : ascii) (s : string) :
  is_linebreak c = false ->
  splitlines (String c s)
  = match splitlines s with
    | l :: ls => String c l :: ls
    | [] => [String c EmptyString]
    end.
Proof. intros H. cbn [splitlines]. now rewrite H. Qed.

(** X17: no line handed to the loop holds a line boundary character. *)
Theorem splitlines_lines_hold_no_boundary (s : string) :
  Forall (fun line => any_char is_linebreak line = false) (splitlines s).
Proof.
  remember (String.length s) as n eqn:Hn. revert s Hn.
  induction n as [n IH] using lt_wf_ind. intros s ->.
  destruct s as [|c s]; [constructor|].
  destruct (is_linebreak c) eqn:Ec.
  - destruct (splitlines_break c s Ec) as [t [-> Ht]].
    constructor; [reflexivity|].
    apply (IH (String.length t)); [simpl; lia | reflexivity].
  - rewrite (splitlines_char c s Ec).
    assert (Hs : Forall (fun line => any_char is_linebreak line = false) (splitlines s))
      by (apply (IH (String.length s)); [simpl; lia | reflexivity]).
    destruct (splitlines s) as [|l ls].
    + repeat constructor. simpl. now rewrite Ec.
    + apply Forall_cons_iff in Hs as [Hl Hls].
      constructor; [|exact Hls]. simpl. now rewrite Ec, Hl.
Qed.

Lemma splitlines_single (s : string) :
  any_char is_linebreak s = false ->
  splitlines s = match s with
                 | EmptyString => []
                 | String _ _ => [s]
                 end.
Proof.
  induction s as [|c s IH]; [reflexivity|]. simpl any_char.
  intros H. apply orb_false_iff in H as [Hc Hs].
  rewrite (splitlines_char c s Hc), (IH Hs). now destruct s.
Qed.

(** X18: a non-empty input without line boundary is processed as one
    line, the first: the run writes the debug record and what that line
    prints from the initial state. *)
Theorem single_line_input (argv : args) (c : ascii) (s : string) :
  any_char is_linebreak (String c s) = false ->
  run_loop argv (String c s)
  = log_debug (debug argv) "Processing input DACL string with 1 lines."
    ++ snd (process_line (details argv) initial_state (String c s)).
Proof.
  intros H. unfold run_loop. rewrite (splitlines_single _ H).
  cbn [process_lines].
  destruct (process_line (details argv) initial_state (String c s)) as [st o].
  cbn [snd]. rewrite app_nil_r. f_equal. f_equal.
  assert (Hn : count "010" (String c s) = 0).
  { revert H. generalize (String c s). intros t.
    induction t as [|d t IH]; [reflexivity|]. simpl.
    intros H. apply orb_false_iff in H as [Hd Ht]. rewrite (IH Ht).
    destruct (Ascii.eqb_spec d "010") as [->|_]; [discriminate Hd | reflexivity]. }
  unfold line_count. now rewrite Hn.
Qed.

Lemma single_line_input_witness :
  any_char is_linebreak "Users:(F)" = false
  /\ run_loop (list_all_with None) "Users:(F)"
     = log_debug (debug (list_all_with None)) "Processing input DACL string with 1 lines."
       ++ snd (process_line (details (list_all_with None)) initial_state "Users:(F)").
Proof.
  split; [reflexivity|].
  exact (single_line_input (list_all_with None) "U" "sers:(F)" eq_refl).
Defined.

(** X19: when no line of the input holds a token, the loop prints
    nothing. *)
Theorem run_without_tokens_is_silent
  (details : bool) (st : loop_state) (lines : list string) :
  Forall (fun line => findall line = []) lines ->
  snd (process_lines details st lines) = [].
Proof.
  intros H. revert st. induction H as [|line rest Hl _ IH]; intros st; [reflexivity|].
  rewrite process_lines_cons. cbn [snd].
  now rewrite process_line_printed, Hl, IH.
Qed.

Lemma run_without_tokens_is_silent_witness :
  Forall (fun line => findall line = []) ["C:\Data"; ""; "Users: F"]
  /\ snd (process_lines true initial_state ["C:\Data"; ""; "Users: F"]) = [].
Proof.
  assert (H : Forall (fun line => findall line = []) ["C:\Data"; ""; "Users: F"])
    by (repeat constructor).
  split; [exact H|].
  exact (run_without_tokens_is_silent true initial_state _ H).
Defined.

(** ** When a target file is found *)

Lemma length_append (a b : string) :
  String.length (a +:+ b) = String.length a + String.length b.
Proof. induction a as [|c a IH]; simpl; [reflexivity | now rewrite IH]. Qed.

Lemma substring_full (s : string) : substring 0 (String.length s) s = s.
Proof. induction s as [|c s IH]; simpl; [reflexivity | now rewrite IH]. Qed.

Lemma substring_cut (s : string) (n : nat) :
  n <= String.length s ->
  substring 0 n s +:+ substring n (String.length s - n) s = s.
Proof.
  revert n. induction s as [|c s IH]; intros n Hn; simpl in Hn.
  - assert (n = 0) as -> by lia. reflexivity.
  - destruct n as [|n].
    + cbn [substring String.length Nat.sub String.append]. now rewrite substring_full.
    + cbn [substring String.length Nat.sub String.append]. rewrite IH by lia. reflexivity.
Qed.

Lemma substring_prefix (a b : string) : substring 0 (String.length a) (a +:+ b) = a.
Proof.
  induction a as [|c a IH]; simpl; [now destruct b | now rewrite IH].
Qed.

Lemma substring_suffix (a b : string) :
  substring (String.length a) (String.length b) (a +:+ b) = b.
Proof.
  induction a as [|c a IH]; simpl; [apply substring_full | exact IH].
Qed.

(** [removesuffix] gives back what stands before the suffix, and
    [endswith] holds exactly for the strings made of a text and the
    suffix. *)
Lemma endswith_cut (s suf : string) :
  endswith s suf = true -> s = removesuffix s suf +:+ suf.
Proof.
  intros H. unfold removesuffix. rewrite H. unfold endswith in H.
  apply andb_true_iff in H as [Hle Heq].
  apply Nat.leb_le in Hle. apply String.eqb_eq in Heq.
  set (n := String.length s - String.length suf) in *.
  transitivity (substring 0 n s +:+ substring n (String.length s - n) s).
  - symmetry. apply substring_cut. unfold n. lia.
  - replace (String.length s - n) with (String.length suf) by (unfold n; lia).
    now rewrite Heq.
Qed.

Lemma endswith_append (p suf : string) :
  endswith (p +:+ suf) suf = true /\ removesuffix (p +:+ suf) suf = p.
Proof.
  assert (H : endswith (p +:+ suf) suf = true).
  { unfold endswith. rewrite length_append.
    replace (String.length p + String.length suf - String.length suf)
      with (String.length p) by lia.
    rewrite substring_suffix, String.eqb_refl, andb_true_r.
    apply Nat.leb_le. lia. }
  split; [exact H|]. unfold removesuffix. rewrite H, length_append.
  replace (String.length p + String.length suf - String.length suf)
    with (String.length p) by lia.
  apply substring_prefix.
Qed.

Lemma rsplit1_at_last (sep : ascii) (a b : string) :
  contains sep b = false -> rsplit1 sep (a +:+ String sep b) = Some (a, b).
Proof.
  intros Hb. induction a as [|c a IH]; simpl.
  - apply rsplit1_None in Hb. now rewrite Hb, Ascii.eqb_refl.
  - now rewrite IH.
Qed.

(** X20: the first line sets the target file to [f] exactly when the line
    is a text, the letters NT, a space, an account without space, a colon
    and a rights string without colon, and [f] is the trimmed text. *)
Theorem target_file_found_iff (details : bool) (line f : string) :
  target_file (fst (process_line details initial_state line)) = Some f
  <-> exists file_part account rights : string,
        line = file_part +:+ "NT " +:+ account +:+ String ":" rights
        /\ contains " " account = false
        /\ contains ":" rights = false
        /\ f = strip file_part.
Proof.
  rewrite process_line_state. cbn [target_file]. unfold extract_identity.
  cbn [is_first_line initial_state target_file]. split.
  - destruct (rsplit1 ":" line) as [[target cur]|] eqn:Ec; [|discriminate].
    destruct (rsplit1 " " target) as [[cf ca]|] eqn:Es; [|discriminate].
    destruct (endswith cf "NT") eqn:En; cbn [negb fst]; [|discriminate].
    intros [= <-].
    apply rsplit1_Some in Ec as [-> Hcur]. apply rsplit1_Some in Es as [-> Hca].
    exists (removesuffix cf "NT"), ca, cur. repeat split; try assumption.
    rewrite (endswith_cut cf "NT" En) at 1.
    now rewrite !append_assoc.
  - intros [p [account [rights [-> [Ha [Hr ->]]]]]].
    replace (p +:+ "NT " +:+ account +:+ String ":" rights)
      with (((p +:+ "NT") +:+ String " " account) +:+ String ":" rights)
      by now rewrite !append_assoc.
    rewrite (rsplit1_at_last ":" _ _ Hr), (rsplit1_at_last " " _ _ Ha).
    destruct (endswith_append p "NT") as [-> ->]. reflexivity.
Qed.

(** X21: [rsplit] with a limit of one cuts at the last separator: it
    answers the pair [(a, b)] exactly when the text is [a], the separator
    and [b], and [b] holds no separator. *)
Theorem rsplit1_cuts_at_last (sep : ascii) (s a b : string) :
  rsplit1 sep s = Some (a, b)
  <-> s = a +:+ String sep b /\ contains sep b = false.
Proof.
  split.
  - apply rsplit1_Some.
  - intros [-> Hb]. now apply rsplit1_at_last.
Qed.
